(** * Plaintext transport over Zephyr sockets

    A shallow embedding of [platform/zephyr/transport/src/plaintext_zephyr.c]:
    the four entry points [Plaintext_Connect], [Plaintext_Disconnect],
    [Plaintext_Recv] and [Plaintext_Send], written in a small state-and-fault
    monad over a world that holds the caller-owned memory, the state of the
    platform (sockets, [errno]) and the trace of collaborator calls and log
    entries.  The socket layer ([zsock_select], [zsock_recv], [zsock_send],
    [Sockets_Connect], [Sockets_Disconnect]) is not part of the file and is
    a parameter of the development. *)

From Stdlib Require Import ZArith Lia.
From stdpp Require Import base option list gmap strings.

Local Open Scope Z_scope.

(** ** Machine integers *)

Module Int32.

Definition modulus : Z := 4294967296.
Definition min_signed : Z := -2147483648.
Definition max_signed : Z := 2147483647.

(** The conversion [( int32_t ) x] of a wider signed value: the value is
    kept when it is representable and reduced modulo [2^32] otherwise
    (the behaviour of the compilers Zephyr builds with). *)
Definition cast (x : Z) : Z := (x - min_signed) mod modulus + min_signed.

Definition in_range (x : Z) : Prop := min_signed <= x <= max_signed.

End Int32.

(** ** Constants of the file *)

(** [#define ONE_SEC_TO_MS ( 1000 )] *)
Definition ONE_SEC_TO_MS : Z := 1000.
(** [#define ONE_MS_TO_US ( 1000 )] *)
Definition ONE_MS_TO_US : Z := 1000.

(** ** Data *)

(** Addresses of caller-owned objects; a C pointer is an [option loc],
    [None] being [NULL]. *)
Definition loc := positive.

Definition is_null {A : Type} (p : option A) : bool :=
  match p with
  | None => true
  | Some _ => false
  end.

(** The parameter block: the socket handle. *)
Record PlaintextParams_t : Type := mkPlaintextParams
  { socketDescriptor : Z }.

(** [struct NetworkContext { PlaintextParams_t * pParams; }] *)
Record NetworkContext : Type := mkNetworkContext
  { pParams : option loc }.

(** Modelled from the spec: the declaration of [ServerInfo_t] is in a header
    of the socket layer; the spec calls it the server address/port info. *)
Record ServerInfo_t : Type := mkServerInfo
  { pHostName : string;
    port : Z }.

(** The two enumerators the file names, and the remaining ones of the
    socket layer's header by their code. *)
Inductive SocketStatus_t : Type :=
| SOCKETS_SUCCESS
| SOCKETS_INVALID_PARAMETER
| SOCKETS_STATUS_CODE (code : Z).

(** [struct timeval] *)
Record timeval : Type := mkTimeval
  { tv_sec : Z;
    tv_usec : Z }.

(** A descriptor set, as the set of the descriptors whose bit is on. *)
Definition fd_set : Type := gset Z.

Definition ZSOCK_FD_ZERO : fd_set := ∅.
Definition ZSOCK_FD_SET (fd : Z) (set : fd_set) : fd_set := {[ fd ]} ∪ set.

(** [&pPlaintextParams->socketDescriptor]: the address of the handle field
    of the parameter block at [p]. *)
Inductive int32_ptr : Type :=
| addr_socketDescriptor (p : loc).

(** ** Collaborator calls and log entries *)

Inductive Event : Type :=
| EvLogError (message : string) (args : list Z)
| EvSocketsConnect (pTcpSocket : int32_ptr) (pServerInfo : option ServerInfo_t)
    (sendTimeoutMs recvTimeoutMs : Z)
| EvSocketsDisconnect (tcpSocket : Z)
| EvSelect (nfds : Z) (readfds writefds exceptfds : option fd_set)
    (timeout : option timeval)
| EvRecv (sock : Z) (buf : loc) (max_len : Z) (flags : Z)
| EvSend (sock : Z) (buf : loc) (len : Z) (flags : Z).

Definition is_log (ev : Event) : bool :=
  match ev with
  | EvLogError _ _ => true
  | _ => false
  end.

Definition is_read (ev : Event) : bool :=
  match ev with
  | EvRecv _ _ _ _ => true
  | _ => false
  end.

Definition is_write (ev : Event) : bool :=
  match ev with
  | EvSend _ _ _ _ => true
  | _ => false
  end.

(** Anything but a log entry touches the network. *)
Definition is_io (ev : Event) : bool := negb (is_log ev).

(** The wait budgets handed to the readiness polls of a trace. *)
Fixpoint select_budgets (evs : list Event) : list (option timeval) :=
  match evs with
  | [] => []
  | EvSelect _ _ _ _ t :: evs' => t :: select_budgets evs'
  | _ :: evs' => select_budgets evs'
  end.

(** ** The platform

    [E] is the state of everything behind the socket API.  Each routine
    takes the arguments of the C call and the state and gives the returned
    value and the next state.  An out-parameter is an argument and a
    result: [zsock_recv] gets the bytes of the buffer and gives the bytes it
    leaves there, [Sockets_Connect] gets the [int32_t] its first argument
    points to and gives the one it leaves there. *)

Record Platform (E : Type) : Type := mkPlatform
  { zsock_select :
      Z -> option fd_set -> option fd_set -> option fd_set ->
      option timeval -> E -> Z * E;
    zsock_recv : Z -> list Byte.byte -> Z -> Z -> E -> Z * list Byte.byte * E;
    zsock_send : Z -> list Byte.byte -> Z -> Z -> E -> Z * E;
    Sockets_Connect :
      Z -> option ServerInfo_t -> Z -> Z -> E -> SocketStatus_t * Z * E;
    Sockets_Disconnect : Z -> E -> SocketStatus_t * E;
    errno : E -> Z }.

Arguments zsock_select {E} _ _ _ _ _ _ _.
Arguments zsock_recv {E} _ _ _ _ _ _.
Arguments zsock_send {E} _ _ _ _ _ _.
Arguments Sockets_Connect {E} _ _ _ _ _ _.
Arguments Sockets_Disconnect {E} _ _ _.
Arguments errno {E} _ _.

(** ** The world

    Caller-owned memory is three stores: the [NetworkContext] structures,
    the parameter blocks and the I/O buffers.  The stores are disjoint: a
    buffer never overlaps a context or a parameter block. *)

Record World (E : Type) : Type := mkWorld
  { platform : E;
    contexts : gmap loc NetworkContext;
    params : gmap loc PlaintextParams_t;
    buffers : gmap loc (list Byte.byte);
    trace : list Event }.

Arguments mkWorld {E} _ _ _ _ _.
Arguments platform {E} _.
Arguments contexts {E} _.
Arguments params {E} _.
Arguments buffers {E} _.
Arguments trace {E} _.

(** The events a run from [w] to [w'] added to the trace. *)
Definition emitted {E : Type} (w w' : World E) : list Event :=
  drop (length (trace w)) (trace w').

(** ** The monad *)

Inductive Fault : Type :=
| AssertionFailed
| InvalidPointer.

Inductive Result (A : Type) : Type :=
| Ok (a : A)
| Abort (f : Fault).

Arguments Ok {A} _.
Arguments Abort {A} _.

Definition M (E A : Type) : Type := World E -> Result (A * World E).

Definition ret {E A : Type} (a : A) : M E A := fun w => Ok (a, w).

Definition bind {E A B : Type} (m : M E A) (k : A -> M E B) : M E B :=
  fun w =>
    match m w with
    | Ok (a, w') => k a w'
    | Abort f => Abort f
    end.

Declare Scope prog_scope.
Delimit Scope prog_scope with prog.
Notation "x <- m ;; k" := (bind m (fun x => k))
  (at level 100, m at next level, right associativity) : prog_scope.
Notation "m ;;; k" := (bind m (fun _ => k))
  (at level 100, right associativity) : prog_scope.
Local Open Scope prog_scope.

Definition abort {E A : Type} (f : Fault) : M E A := fun _ => Abort f.

(** [assert( b )] *)
Definition assert {E : Type} (b : bool) : M E unit :=
  if b then ret tt else abort AssertionFailed.

(** C's [a || b] and [a && b]: the right operand is evaluated only when
    the left one does not decide. *)
Definition or_else {E : Type} (a : bool) (b : M E bool) : M E bool :=
  if a then ret true else b.

Definition and_then {E : Type} (a : bool) (b : M E bool) : M E bool :=
  if a then b else ret false.

Definition emit {E : Type} (ev : Event) : M E unit :=
  fun w =>
    Ok (tt, mkWorld (platform w) (contexts w) (params w) (buffers w)
              (trace w ++ [ev])).

(** [LogError( ( message, args ) )] *)
Definition LogError {E : Type} (message : string) (args : list Z) : M E unit :=
  emit (EvLogError message args).

(** [pNetworkContext->pParams] *)
Definition load_pParams {E : Type} (pNetworkContext : option loc)
  : M E (option loc) :=
  fun w =>
    match pNetworkContext with
    | None => Abort InvalidPointer
    | Some c =>
        match contexts w !! c with
        | Some ctx => Ok (pParams ctx, w)
        | None => Abort InvalidPointer
        end
    end.

(** [pPlaintextParams->socketDescriptor] *)
Definition load_socketDescriptor {E : Type} (pPlaintextParams : option loc)
  : M E Z :=
  fun w =>
    match pPlaintextParams with
    | None => Abort InvalidPointer
    | Some p =>
        match params w !! p with
        | Some blk => Ok (socketDescriptor blk, w)
        | None => Abort InvalidPointer
        end
    end.

(** [&pPlaintextParams->socketDescriptor] *)
Definition address_of_socketDescriptor {E : Type}
  (pPlaintextParams : option loc) : M E int32_ptr :=
  match pPlaintextParams with
  | None => abort InvalidPointer
  | Some p => ret (addr_socketDescriptor p)
  end.

Section Program.

Context {E : Type} (P : Platform E).

(** [errno] *)
Definition load_errno : M E Z := fun w => Ok (errno P (platform w), w).

(** *** Calls into the socket layer *)

Definition call_Sockets_Connect (pTcpSocket : int32_ptr)
  (pServerInfo : option ServerInfo_t) (sendTimeoutMs recvTimeoutMs : Z)
  : M E SocketStatus_t :=
  fun w =>
    match pTcpSocket with
    | addr_socketDescriptor p =>
        match params w !! p with
        | None => Abort InvalidPointer
        | Some blk =>
            let '(status, sock, e) :=
              Sockets_Connect P (socketDescriptor blk) pServerInfo
                sendTimeoutMs recvTimeoutMs (platform w) in
            Ok (status,
                mkWorld e (contexts w)
                  (<[ p := mkPlaintextParams sock ]> (params w))
                  (buffers w)
                  (trace w ++
                     [EvSocketsConnect pTcpSocket pServerInfo
                        sendTimeoutMs recvTimeoutMs]))
        end
    end.

Definition call_Sockets_Disconnect (tcpSocket : Z) : M E SocketStatus_t :=
  fun w =>
    let '(status, e) := Sockets_Disconnect P tcpSocket (platform w) in
    Ok (status,
        mkWorld e (contexts w) (params w) (buffers w)
          (trace w ++ [EvSocketsDisconnect tcpSocket])).

Definition call_zsock_select (nfds : Z)
  (readfds writefds exceptfds : option fd_set) (timeout : option timeval)
  : M E Z :=
  fun w =>
    let '(status, e) :=
      zsock_select P nfds readfds writefds exceptfds timeout (platform w) in
    Ok (status,
        mkWorld e (contexts w) (params w) (buffers w)
          (trace w ++ [EvSelect nfds readfds writefds exceptfds timeout])).

Definition call_zsock_recv (sock : Z) (buf : option loc) (max_len flags : Z)
  : M E Z :=
  fun w =>
    match buf with
    | None => Abort InvalidPointer
    | Some b =>
        match buffers w !! b with
        | None => Abort InvalidPointer
        | Some data =>
            let '(n, data', e) :=
              zsock_recv P sock data max_len flags (platform w) in
            Ok (n,
                mkWorld e (contexts w) (params w)
                  (<[ b := data' ]> (buffers w))
                  (trace w ++ [EvRecv sock b max_len flags]))
        end
    end.

Definition call_zsock_send (sock : Z) (buf : option loc) (len flags : Z)
  : M E Z :=
  fun w =>
    match buf with
    | None => Abort InvalidPointer
    | Some b =>
        match buffers w !! b with
        | None => Abort InvalidPointer
        | Some data =>
            let '(n, e) := zsock_send P sock data len flags (platform w) in
            Ok (n,
                mkWorld e (contexts w) (params w) (buffers w)
                  (trace w ++ [EvSend sock b len flags]))
        end
    end.

(** *** The functions of the file

    A local that is assigned again is bound again.  The initial values
    of [bytesReceived], [bytesSent] and [selectStatus] (-1) are
    overwritten on every path and [getTimeoutStatus] is never read, so
    they have no binding.  [selectStatus] takes the [int] of
    [zsock_select] as it is; the count of [zsock_recv] and [zsock_send] is
    an [ssize_t] and goes through [( int32_t )]. *)

Definition logTransportError (errorNumber : Z) : M E unit :=
  LogError "A transport error occurred: %d." [errorNumber].

Definition Plaintext_Connect (pNetworkContext : option loc)
  (pServerInfo : option ServerInfo_t) (sendTimeoutMs recvTimeoutMs : Z)
  : M E SocketStatus_t :=
  invalid <- or_else (is_null pNetworkContext)
               (p <- load_pParams pNetworkContext ;; ret (is_null p)) ;;
  if invalid : bool then
    LogError "Parameter check failed: pNetworkContext is NULL." [] ;;;
    ret SOCKETS_INVALID_PARAMETER
  else
    pPlaintextParams <- load_pParams pNetworkContext ;;
    pTcpSocket <- address_of_socketDescriptor pPlaintextParams ;;
    returnStatus <- call_Sockets_Connect pTcpSocket pServerInfo
                      sendTimeoutMs recvTimeoutMs ;;
    ret returnStatus.

Definition Plaintext_Disconnect (pNetworkContext : option loc)
  : M E SocketStatus_t :=
  invalid <- or_else (is_null pNetworkContext)
               (p <- load_pParams pNetworkContext ;; ret (is_null p)) ;;
  if invalid : bool then
    LogError "Parameter check failed: pNetworkContext is NULL." [] ;;;
    ret SOCKETS_INVALID_PARAMETER
  else
    pPlaintextParams <- load_pParams pNetworkContext ;;
    tcpSocket <- load_socketDescriptor pPlaintextParams ;;
    returnStatus <- call_Sockets_Disconnect tcpSocket ;;
    ret returnStatus.

Definition Plaintext_Recv (pNetworkContext : option loc)
  (pBuffer : option loc) (bytesToRecv : Z) : M E Z :=
  ok <- and_then (negb (is_null pNetworkContext))
          (p <- load_pParams pNetworkContext ;; ret (negb (is_null p))) ;;
  assert ok ;;;
  assert (negb (is_null pBuffer)) ;;;
  assert (0 <? bytesToRecv) ;;;
  pPlaintextParams <- load_pParams pNetworkContext ;;
  let recvTimeout :=
    {| tv_sec := Z.quot 500 ONE_SEC_TO_MS;
       tv_usec := ONE_MS_TO_US * Z.rem 500 ONE_SEC_TO_MS |} in
  let readfds := ZSOCK_FD_ZERO in
  fd <- load_socketDescriptor pPlaintextParams ;;
  let readfds := ZSOCK_FD_SET fd readfds in
  fd <- load_socketDescriptor pPlaintextParams ;;
  selectStatus <- call_zsock_select (fd + 1) (Some readfds) None None
                    (Some recvTimeout) ;;
  bytesReceived <-
    (if 0 <? selectStatus then
       fd <- load_socketDescriptor pPlaintextParams ;;
       n <- call_zsock_recv fd pBuffer bytesToRecv 0 ;;
       ret (Int32.cast n)
     else if selectStatus <? 0 then
       ret (-1)
     else
       ret 0) ;;
  bytesReceived <-
    (if (0 <? selectStatus) && (bytesReceived =? 0) then
       ret (-1)
     else if bytesReceived <? 0 then
       e <- load_errno ;;
       logTransportError e ;;;
       ret bytesReceived
     else
       ret bytesReceived) ;;
  ret bytesReceived.

Definition Plaintext_Send (pNetworkContext : option loc)
  (pBuffer : option loc) (bytesToSend : Z) : M E Z :=
  ok <- and_then (negb (is_null pNetworkContext))
          (p <- load_pParams pNetworkContext ;; ret (negb (is_null p))) ;;
  assert ok ;;;
  assert (negb (is_null pBuffer)) ;;;
  assert (0 <? bytesToSend) ;;;
  pPlaintextParams <- load_pParams pNetworkContext ;;
  let sendTimeout :=
    {| tv_sec := Z.quot 500 ONE_SEC_TO_MS;
       tv_usec := ONE_MS_TO_US * Z.rem 500 ONE_SEC_TO_MS |} in
  let writefds := ZSOCK_FD_ZERO in
  fd <- load_socketDescriptor pPlaintextParams ;;
  let writefds := ZSOCK_FD_SET fd writefds in
  fd <- load_socketDescriptor pPlaintextParams ;;
  selectStatus <- call_zsock_select (fd + 1) None (Some writefds) None
                    (Some sendTimeout) ;;
  bytesSent <-
    (if 0 <? selectStatus then
       fd <- load_socketDescriptor pPlaintextParams ;;
       n <- call_zsock_send fd pBuffer bytesToSend 0 ;;
       ret (Int32.cast n)
     else if selectStatus <? 0 then
       ret (-1)
     else
       ret 0) ;;
  bytesSent <-
    (if (0 <? selectStatus) && (bytesSent =? 0) then
       ret (-1)
     else if bytesSent <? 0 then
       e <- load_errno ;;
       logTransportError e ;;;
       ret bytesSent
     else
       ret bytesSent) ;;
  ret bytesSent.

End Program.

(** ** Reading a trace *)

Definition log_entries (evs : list Event) : list Event := List.filter is_log evs.
Definition read_attempts (evs : list Event) : list Event := List.filter is_read evs.
Definition write_attempts (evs : list Event) : list Event := List.filter is_write evs.
Definition io_calls (evs : list Event) : list Event := List.filter is_io evs.

(** The log entry of [logTransportError]. *)
Definition transport_error_entry (errorNumber : Z) : Event :=
  EvLogError "A transport error occurred: %d." [errorNumber].

(** The readiness polls on the one descriptor [fd], for reading and for
    writing, with the budget of the two transfer functions. *)
Definition poll_readable {E : Type} (P : Platform E) (fd : Z) (e : E) : Z * E :=
  zsock_select P (fd + 1) (Some {[ fd ]}) None None
    (Some (mkTimeval 0 500000)) e.

Definition poll_writable {E : Type} (P : Platform E) (fd : Z) (e : E) : Z * E :=
  zsock_select P (fd + 1) None (Some {[ fd ]}) None
    (Some (mkTimeval 0 500000)) e.

Definition select_readable (fd : Z) : Event :=
  EvSelect (fd + 1) (Some {[ fd ]}) None None (Some (mkTimeval 0 500000)).

Definition select_writable (fd : Z) : Event :=
  EvSelect (fd + 1) None (Some {[ fd ]}) None (Some (mkTimeval 0 500000)).

(** The context pointer is [NULL], or it points to a context whose
    parameter block pointer is [NULL]. *)
Definition null_context_or_params {E : Type} (w : World E)
  (pNetworkContext : option loc) : Prop :=
  match pNetworkContext with
  | None => True
  | Some c => contexts w !! c = Some (mkNetworkContext None)
  end.

Definition parameter_check_entry : Event :=
  EvLogError "Parameter check failed: pNetworkContext is NULL." [].

(** ** Substituting writability for readability

    [swap_rw P] is the platform [P] seen with the two directions
    exchanged: a poll for readability is [P]'s poll for writability, a
    read is [P]'s write (which leaves the buffer as it is), and the other
    way round. *)

Definition swap_rw {E : Type} (P : Platform E) : Platform E :=
  {| zsock_select := fun nfds readfds writefds exceptfds timeout e =>
       zsock_select P nfds writefds readfds exceptfds timeout e;
     zsock_recv := fun sock data max_len flags e =>
       let '(n, e') := zsock_send P sock data max_len flags e in
       (n, data, e');
     zsock_send := fun sock data len flags e =>
       let '(n, _, e') := zsock_recv P sock data len flags e in
       (n, e');
     Sockets_Connect := Sockets_Connect P;
     Sockets_Disconnect := Sockets_Disconnect P;
     errno := errno P |}.

Definition swap_event (ev : Event) : Event :=
  match ev with
  | EvSelect nfds readfds writefds exceptfds timeout =>
      EvSelect nfds writefds readfds exceptfds timeout
  | EvRecv sock buf max_len flags => EvSend sock buf max_len flags
  | EvSend sock buf len flags => EvRecv sock buf len flags
  | _ => ev
  end.

(** Two runs from [w] agree up to the exchange of the directions: the same
    fault, or the same returned value, platform state and memory, with
    traces that differ by [swap_event] only. *)
Definition mirrored {E A : Type} (w : World E)
  (r1 r2 : Result (A * World E)) : Prop :=
  match r1, r2 with
  | Ok (a1, w1), Ok (a2, w2) =>
      a1 = a2 /\
      log_entries (emitted w w1) = log_entries (emitted w w2) /\
      platform w1 = platform w2 /\
      contexts w1 = contexts w2 /\
      params w1 = params w2 /\
      buffers w1 = buffers w2 /\
      emitted w w1 = map swap_event (emitted w w2)
  | Abort f1, Abort f2 => f1 = f2
  | _, _ => False
  end.

(** ** A scripted platform

    A platform whose answers are read off a script: it serves the examples
    below. *)

Module Scripted.

Record Net : Type := mkNet
  { poll_status : Z;
    io_count : Z;
    incoming : list Byte.byte;
    connect_status : SocketStatus_t;
    connect_socket : Z;
    disconnect_status : SocketStatus_t;
    last_errno : Z }.

Definition sockets : Platform Net :=
  {| zsock_select := fun _ _ _ _ _ e => (poll_status e, e);
     zsock_recv := fun _ _ _ _ e => (io_count e, incoming e, e);
     zsock_send := fun _ _ _ _ e => (io_count e, e);
     Sockets_Connect := fun _ _ _ _ e =>
       (connect_status e, connect_socket e, e);
     Sockets_Disconnect := fun _ e => (disconnect_status e, e);
     errno := last_errno |}.

(** The poll answers [poll] and the read or write answers [io]. *)
Definition net (poll io : Z) : Net :=
  mkNet poll io [] SOCKETS_SUCCESS 7 SOCKETS_SUCCESS 104.

(** One context at address 1, its parameter block at 2 holding the
    descriptor 3, and an empty buffer at 4. *)
Definition world (e : Net) : World Net :=
  mkWorld e
    {[ 1%positive := mkNetworkContext (Some 2%positive) ]}
    {[ 2%positive := mkPlaintextParams 3 ]}
    {[ 4%positive := [] ]}
    [].

(** A context at address 1 whose parameter block pointer is [NULL]. *)
Definition world_no_params (e : Net) : World Net :=
  mkWorld e {[ 1%positive := mkNetworkContext None ]} ∅ ∅ [].

(** The peer closes: from now on the poll answers ready and the read
    answers 0. *)
Definition peer_closes : M Net unit :=
  fun w =>
    Ok (tt, mkWorld (net 1 0) (contexts w) (params w) (buffers w) (trace w)).

(** Connect, send 10 bytes, the peer closes, receive, disconnect. *)
Definition session : M Net (SocketStatus_t * Z * Z * SocketStatus_t) :=
  (opened <- Plaintext_Connect sockets (Some 1%positive)
               (Some (mkServerInfo "broker" 1883)) 30000 60000 ;;
   sent <- Plaintext_Send sockets (Some 1%positive) (Some 4%positive) 10 ;;
   peer_closes ;;;
   received <- Plaintext_Recv sockets (Some 1%positive) (Some 4%positive) 10 ;;
   closed <- Plaintext_Disconnect sockets (Some 1%positive) ;;
   ret (opened, sent, received, closed))%prog.

End Scripted.

(** ** Running the functions *)

Lemma fd_set_single (fd : Z) : ZSOCK_FD_SET fd ZSOCK_FD_ZERO = {[ fd ]}.
Proof. unfold ZSOCK_FD_SET, ZSOCK_FD_ZERO. apply (right_id_L ∅ (∪)). Qed.

Lemma emitted_app {E : Type} (w : World E) (e : E)
  (cs : gmap loc NetworkContext) (ps : gmap loc PlaintextParams_t)
  (bs : gmap loc (list Byte.byte)) (evs : list Event) :
  emitted w (mkWorld e cs ps bs (trace w ++ evs)) = evs.
Proof. unfold emitted; simpl. apply drop_app_length. Qed.

Lemma cast_in_range (x : Z) : Int32.in_range x -> Int32.cast x = x.
Proof.
  unfold Int32.in_range, Int32.cast, Int32.min_signed, Int32.max_signed,
    Int32.modulus.
  intros Hx. rewrite Z.mod_small; lia.
Qed.

Section Runs.

Context {E : Type} (P : Platform E).

Local Open Scope prog_scope.

Ltac run_entry Hc Hp Hn :=
  unfold bind, and_then, load_pParams, load_socketDescriptor, assert, ret,
    call_zsock_select;
  repeat (simpl; first [rewrite Hc | rewrite Hp | rewrite Hn]);
  rewrite fd_set_single;
  change (mkTimeval (Z.quot 500 ONE_SEC_TO_MS)
            (ONE_MS_TO_US * Z.rem 500 ONE_SEC_TO_MS))
    with (mkTimeval 0 500000).

(** What [Plaintext_Recv] does on a valid context and buffer, by the
    answers of the platform. *)
Lemma Plaintext_Recv_run (w : World E) (c p b : loc) (fd n : Z)
  (data : list Byte.byte) :
  contexts w !! c = Some (mkNetworkContext (Some p)) ->
  params w !! p = Some (mkPlaintextParams fd) ->
  buffers w !! b = Some data ->
  0 < n ->
  Plaintext_Recv P (Some c) (Some b) n w =
    let '(s, e1) := poll_readable P fd (platform w) in
    if 0 <? s then
      let '(r, data', e2) := zsock_recv P fd data n 0 e1 in
      let bs := <[ b := data' ]> (buffers w) in
      if Int32.cast r =? 0 then
        Ok (-1, mkWorld e2 (contexts w) (params w) bs
                  (trace w ++ [select_readable fd; EvRecv fd b n 0]))
      else if Int32.cast r <? 0 then
        Ok (Int32.cast r,
            mkWorld e2 (contexts w) (params w) bs
              (trace w ++ [select_readable fd; EvRecv fd b n 0;
                           transport_error_entry (errno P e2)]))
      else
        Ok (Int32.cast r,
            mkWorld e2 (contexts w) (params w) bs
              (trace w ++ [select_readable fd; EvRecv fd b n 0]))
    else if s <? 0 then
      Ok (-1, mkWorld e1 (contexts w) (params w) (buffers w)
                (trace w ++ [select_readable fd;
                             transport_error_entry (errno P e1)]))
    else
      Ok (0, mkWorld e1 (contexts w) (params w) (buffers w)
               (trace w ++ [select_readable fd])).
Proof.
  intros Hc Hp Hb Hn. apply Z.ltb_lt in Hn.
  unfold Plaintext_Recv, poll_readable. run_entry Hc Hp Hn.
  destruct (zsock_select P _ _ _ _ _ _) as [s e1].
  destruct (0 <? s) eqn:Hpos; simpl.
  - rewrite Hp. unfold call_zsock_recv; simpl. rewrite Hb.
    destruct (zsock_recv P fd data n 0 e1) as [[r data'] e2]; simpl.
    destruct (Int32.cast r =? 0); simpl.
    + rewrite <- !app_assoc. reflexivity.
    + destruct (Int32.cast r <? 0); simpl; rewrite <- !app_assoc; reflexivity.
  - destruct (s <? 0); simpl; rewrite <- ?app_assoc; reflexivity.
Qed.

(** The same for [Plaintext_Send]; the buffer is left as it is. *)
Lemma Plaintext_Send_run (w : World E) (c p b : loc) (fd n : Z)
  (data : list Byte.byte) :
  contexts w !! c = Some (mkNetworkContext (Some p)) ->
  params w !! p = Some (mkPlaintextParams fd) ->
  buffers w !! b = Some data ->
  0 < n ->
  Plaintext_Send P (Some c) (Some b) n w =
    let '(s, e1) := poll_writable P fd (platform w) in
    if 0 <? s then
      let '(r, e2) := zsock_send P fd data n 0 e1 in
      if Int32.cast r =? 0 then
        Ok (-1, mkWorld e2 (contexts w) (params w) (buffers w)
                  (trace w ++ [select_writable fd; EvSend fd b n 0]))
      else if Int32.cast r <? 0 then
        Ok (Int32.cast r,
            mkWorld e2 (contexts w) (params w) (buffers w)
              (trace w ++ [select_writable fd; EvSend fd b n 0;
                           transport_error_entry (errno P e2)]))
      else
        Ok (Int32.cast r,
            mkWorld e2 (contexts w) (params w) (buffers w)
              (trace w ++ [select_writable fd; EvSend fd b n 0]))
    else if s <? 0 then
      Ok (-1, mkWorld e1 (contexts w) (params w) (buffers w)
                (trace w ++ [select_writable fd;
                             transport_error_entry (errno P e1)]))
    else
      Ok (0, mkWorld e1 (contexts w) (params w) (buffers w)
               (trace w ++ [select_writable fd])).
Proof.
  intros Hc Hp Hb Hn. apply Z.ltb_lt in Hn.
  unfold Plaintext_Send, poll_writable. run_entry Hc Hp Hn.
  destruct (zsock_select P _ _ _ _ _ _) as [s e1].
  destruct (0 <? s) eqn:Hpos; simpl.
  - rewrite Hp. unfold call_zsock_send; simpl. rewrite Hb.
    destruct (zsock_send P fd data n 0 e1) as [r e2]; simpl.
    destruct (Int32.cast r =? 0); simpl.
    + rewrite <- !app_assoc. reflexivity.
    + destruct (Int32.cast r <? 0); simpl; rewrite <- !app_assoc; reflexivity.
  - destruct (s <? 0); simpl; rewrite <- ?app_assoc; reflexivity.
Qed.

(** [Plaintext_Connect] on a valid context: one call of the socket layer,
    which may leave a new handle in the parameter block. *)
Lemma Plaintext_Connect_run (w : World E) (c p : loc) (fd : Z)
  (pServerInfo : option ServerInfo_t) (sendTimeoutMs recvTimeoutMs : Z) :
  contexts w !! c = Some (mkNetworkContext (Some p)) ->
  params w !! p = Some (mkPlaintextParams fd) ->
  Plaintext_Connect P (Some c) pServerInfo sendTimeoutMs recvTimeoutMs w =
    let '(status, sock, e) :=
      Sockets_Connect P fd pServerInfo sendTimeoutMs recvTimeoutMs
        (platform w) in
    Ok (status,
        mkWorld e (contexts w) (<[ p := mkPlaintextParams sock ]> (params w))
          (buffers w)
          (trace w ++
             [EvSocketsConnect (addr_socketDescriptor p) pServerInfo
                sendTimeoutMs recvTimeoutMs])).
Proof.
  intros Hc Hp.
  unfold Plaintext_Connect, bind, or_else, load_pParams,
    address_of_socketDescriptor, call_Sockets_Connect, ret.
  repeat (simpl; first [rewrite Hc | rewrite Hp]).
  simpl. destruct (Sockets_Connect P fd _ _ _ _) as [[status sock] e].
  reflexivity.
Qed.

Lemma Plaintext_Disconnect_run (w : World E) (c p : loc) (fd : Z) :
  contexts w !! c = Some (mkNetworkContext (Some p)) ->
  params w !! p = Some (mkPlaintextParams fd) ->
  Plaintext_Disconnect P (Some c) w =
    let '(status, e) := Sockets_Disconnect P fd (platform w) in
    Ok (status,
        mkWorld e (contexts w) (params w) (buffers w)
          (trace w ++ [EvSocketsDisconnect fd])).
Proof.
  intros Hc Hp.
  unfold Plaintext_Disconnect, bind, or_else, load_pParams,
    load_socketDescriptor, call_Sockets_Disconnect, ret.
  repeat (simpl; first [rewrite Hc | rewrite Hp]).
  simpl. destruct (Sockets_Disconnect P fd _) as [status e]. reflexivity.
Qed.

(** The parameter check of the two functions fails: a log entry and
    nothing else. *)
Lemma Plaintext_Connect_invalid (w : World E) (pNetworkContext : option loc)
  (pServerInfo : option ServerInfo_t) (sendTimeoutMs recvTimeoutMs : Z) :
  null_context_or_params w pNetworkContext ->
  Plaintext_Connect P pNetworkContext pServerInfo sendTimeoutMs
    recvTimeoutMs w =
    Ok (SOCKETS_INVALID_PARAMETER,
        mkWorld (platform w) (contexts w) (params w) (buffers w)
          (trace w ++ [parameter_check_entry])).
Proof.
  destruct pNetworkContext as [c|]; simpl; intros Hc;
    unfold Plaintext_Connect, bind, or_else, load_pParams, ret; simpl;
    rewrite ?Hc; reflexivity.
Qed.

Lemma Plaintext_Disconnect_invalid (w : World E)
  (pNetworkContext : option loc) :
  null_context_or_params w pNetworkContext ->
  Plaintext_Disconnect P pNetworkContext w =
    Ok (SOCKETS_INVALID_PARAMETER,
        mkWorld (platform w) (contexts w) (params w) (buffers w)
          (trace w ++ [parameter_check_entry])).
Proof.
  destruct pNetworkContext as [c|]; simpl; intros Hc;
    unfold Plaintext_Disconnect, bind, or_else, load_pParams, ret; simpl;
    rewrite ?Hc; reflexivity.
Qed.

End Runs.

(** ** Receive *)

Section Receive.

Context {E : Type} (P : Platform E).

(** C2: when the readiness poll times out (select gives 0),
    [Plaintext_Recv] returns exactly 0, issues no log entry and makes no
    read attempt. *)
Theorem Plaintext_Recv_timeout (w : World E) (c p b : loc) (fd n : Z)
  (data : list Byte.byte) (e1 : E) :
  contexts w !! c = Some (mkNetworkContext (Some p)) ->
  params w !! p = Some (mkPlaintextParams fd) ->
  buffers w !! b = Some data ->
  0 < n ->
  poll_readable P fd (platform w) = (0, e1) ->
  exists w',
    Plaintext_Recv P (Some c) (Some b) n w = Ok (0, w') /\
    log_entries (emitted w w') = [] /\
    read_attempts (emitted w w') = [].
Proof.
  intros Hc Hp Hb Hn Hpoll.
  rewrite (Plaintext_Recv_run P w c p b fd n data Hc Hp Hb Hn), Hpoll.
  simpl. eexists; split; [reflexivity|].
  rewrite emitted_app. split; reflexivity.
Qed.

(** C3: when the readiness poll itself fails (select gives a negative
    value), [Plaintext_Recv] returns exactly -1 and makes no read attempt
    on the socket. *)
Theorem Plaintext_Recv_poll_error (w : World E) (c p b : loc) (fd n : Z)
  (data : list Byte.byte) (s : Z) (e1 : E) :
  contexts w !! c = Some (mkNetworkContext (Some p)) ->
  params w !! p = Some (mkPlaintextParams fd) ->
  buffers w !! b = Some data ->
  0 < n ->
  poll_readable P fd (platform w) = (s, e1) ->
  s < 0 ->
  exists w',
    Plaintext_Recv P (Some c) (Some b) n w = Ok (-1, w') /\
    read_attempts (emitted w w') = [] /\
    buffers w' = buffers w.
Proof.
  intros Hc Hp Hb Hn Hpoll Hs.
  rewrite (Plaintext_Recv_run P w c p b fd n data Hc Hp Hb Hn), Hpoll.
  assert (H0 : (0 <? s) = false) by (apply Z.ltb_ge; lia).
  assert (H1 : (s <? 0) = true) by (apply Z.ltb_lt; lia).
  rewrite H0, H1.
  eexists; split; [reflexivity|].
  rewrite emitted_app. split; reflexivity.
Qed.

(** C1 (amended): when the readiness poll reports ready and the read
    returns exactly 0 bytes, [Plaintext_Recv] returns exactly -1; the one
    read is the only transfer attempted, and no log entry is issued: the
    peer-closed branch sets the result and skips [logTransportError]. *)
Theorem Plaintext_Recv_peer_closed (w : World E) (c p b : loc) (fd n : Z)
  (data data' : list Byte.byte) (s : Z) (e1 e2 : E) :
  contexts w !! c = Some (mkNetworkContext (Some p)) ->
  params w !! p = Some (mkPlaintextParams fd) ->
  buffers w !! b = Some data ->
  0 < n ->
  poll_readable P fd (platform w) = (s, e1) ->
  0 < s ->
  zsock_recv P fd data n 0 e1 = (0, data', e2) ->
  exists w',
    Plaintext_Recv P (Some c) (Some b) n w = Ok (-1, w') /\
    log_entries (emitted w w') = [] /\
    read_attempts (emitted w w') = [EvRecv fd b n 0].
Proof.
  intros Hc Hp Hb Hn Hpoll Hs Hrecv.
  rewrite (Plaintext_Recv_run P w c p b fd n data Hc Hp Hb Hn), Hpoll.
  apply Z.ltb_lt in Hs. rewrite Hs, Hrecv. simpl.
  eexists; split; [reflexivity|].
  rewrite emitted_app. split; reflexivity.
Qed.

(** C4 (amended): when the readiness poll reports ready and the read
    returns a positive count [r] that the [int32_t] result can hold
    ([r <= 2147483647]), [Plaintext_Recv] returns exactly [r], whatever
    [r] is relative to [bytesToRecv]: the read is attempted once, with no
    retry, and no log entry is issued.  Beyond that bound the
    [( int32_t )] conversion of the count changes the value. *)
Theorem Plaintext_Recv_data (w : World E) (c p b : loc) (fd n : Z)
  (data data' : list Byte.byte) (s r : Z) (e1 e2 : E) :
  contexts w !! c = Some (mkNetworkContext (Some p)) ->
  params w !! p = Some (mkPlaintextParams fd) ->
  buffers w !! b = Some data ->
  0 < n ->
  poll_readable P fd (platform w) = (s, e1) ->
  0 < s ->
  zsock_recv P fd data n 0 e1 = (r, data', e2) ->
  Int32.in_range r ->
  0 < r ->
  exists w',
    Plaintext_Recv P (Some c) (Some b) n w = Ok (r, w') /\
    log_entries (emitted w w') = [] /\
    read_attempts (emitted w w') = [EvRecv fd b n 0] /\
    buffers w' = <[ b := data' ]> (buffers w).
Proof.
  intros Hc Hp Hb Hn Hpoll Hs Hrecv Hrange Hr.
  rewrite (Plaintext_Recv_run P w c p b fd n data Hc Hp Hb Hn), Hpoll.
  apply Z.ltb_lt in Hs. rewrite Hs, Hrecv.
  rewrite (cast_in_range r Hrange).
  assert (H0 : (r =? 0) = false) by (apply Z.eqb_neq; lia).
  assert (H1 : (r <? 0) = false) by (apply Z.ltb_ge; lia).
  rewrite H0, H1.
  eexists; split; [reflexivity|].
  rewrite emitted_app. repeat split; reflexivity.
Qed.

End Receive.

(** ** Both directions *)

Section Transfer.

Context {E : Type} (P : Platform E).

Lemma Plaintext_Recv_budget (w : World E) (c p b : loc) (fd n : Z)
  (data : list Byte.byte) :
  contexts w !! c = Some (mkNetworkContext (Some p)) ->
  params w !! p = Some (mkPlaintextParams fd) ->
  buffers w !! b = Some data ->
  0 < n ->
  exists r w',
    Plaintext_Recv P (Some c) (Some b) n w = Ok (r, w') /\
    select_budgets (emitted w w') = [Some (mkTimeval 0 500000)] /\
    contexts w' = contexts w /\ params w' = params w.
Proof.
  intros Hc Hp Hb Hn.
  rewrite (Plaintext_Recv_run P w c p b fd n data Hc Hp Hb Hn).
  destruct (poll_readable P fd (platform w)) as [s e1].
  destruct (0 <? s).
  - destruct (zsock_recv P fd data n 0 e1) as [[r data'] e2]; simpl.
    destruct (Int32.cast r =? 0); [|destruct (Int32.cast r <? 0)];
      do 2 eexists; (split; [reflexivity|]); rewrite emitted_app;
      repeat split; reflexivity.
  - destruct (s <? 0);
      do 2 eexists; (split; [reflexivity|]); rewrite emitted_app;
      repeat split; reflexivity.
Qed.

Lemma Plaintext_Send_budget (w : World E) (c p b : loc) (fd n : Z)
  (data : list Byte.byte) :
  contexts w !! c = Some (mkNetworkContext (Some p)) ->
  params w !! p = Some (mkPlaintextParams fd) ->
  buffers w !! b = Some data ->
  0 < n ->
  exists r w',
    Plaintext_Send P (Some c) (Some b) n w = Ok (r, w') /\
    select_budgets (emitted w w') = [Some (mkTimeval 0 500000)] /\
    contexts w' = contexts w /\ params w' = params w.
Proof.
  intros Hc Hp Hb Hn.
  rewrite (Plaintext_Send_run P w c p b fd n data Hc Hp Hb Hn).
  destruct (poll_writable P fd (platform w)) as [s e1].
  destruct (0 <? s).
  - destruct (zsock_send P fd data n 0 e1) as [r e2]; simpl.
    destruct (Int32.cast r =? 0); [|destruct (Int32.cast r <? 0)];
      do 2 eexists; (split; [reflexivity|]); rewrite emitted_app;
      repeat split; reflexivity.
  - destruct (s <? 0);
      do 2 eexists; (split; [reflexivity|]); rewrite emitted_app;
      repeat split; reflexivity.
Qed.

(** C5: every call of [Plaintext_Recv] and of [Plaintext_Send] hands the
    readiness poll the budget of 500 ms ([tv_sec = 0],
    [tv_usec = 500000]), also right after a [Plaintext_Connect] that was
    given any two timeouts. *)
Theorem wait_budget_is_500ms (w : World E) (c p b : loc) (fd n : Z)
  (data : list Byte.byte) (pServerInfo : option ServerInfo_t)
  (sendTimeoutMs recvTimeoutMs : Z) :
  contexts w !! c = Some (mkNetworkContext (Some p)) ->
  params w !! p = Some (mkPlaintextParams fd) ->
  buffers w !! b = Some data ->
  0 < n ->
  (exists r w',
     Plaintext_Recv P (Some c) (Some b) n w = Ok (r, w') /\
     select_budgets (emitted w w') = [Some (mkTimeval 0 500000)]) /\
  (exists r w',
     Plaintext_Send P (Some c) (Some b) n w = Ok (r, w') /\
     select_budgets (emitted w w') = [Some (mkTimeval 0 500000)]) /\
  (exists status w1,
     Plaintext_Connect P (Some c) pServerInfo sendTimeoutMs recvTimeoutMs w
       = Ok (status, w1) /\
     (exists r w2,
        Plaintext_Recv P (Some c) (Some b) n w1 = Ok (r, w2) /\
        select_budgets (emitted w1 w2) = [Some (mkTimeval 0 500000)]) /\
     (exists r w2,
        Plaintext_Send P (Some c) (Some b) n w1 = Ok (r, w2) /\
        select_budgets (emitted w1 w2) = [Some (mkTimeval 0 500000)])).
Proof.
  intros Hc Hp Hb Hn. split; [|split].
  - destruct (Plaintext_Recv_budget w c p b fd n data Hc Hp Hb Hn)
      as (r & w' & Hrun & Hbudget & _).
    exists r, w'. split; assumption.
  - destruct (Plaintext_Send_budget w c p b fd n data Hc Hp Hb Hn)
      as (r & w' & Hrun & Hbudget & _).
    exists r, w'. split; assumption.
  - rewrite (Plaintext_Connect_run P w c p fd _ _ _ Hc Hp).
    destruct (Sockets_Connect P fd pServerInfo sendTimeoutMs recvTimeoutMs
                (platform w)) as [[status sock] e].
    do 2 eexists. split; [reflexivity|].
    split.
    + edestruct (Plaintext_Recv_budget) as (r & w2 & Hrun & Hbudget & _);
        [..|exists r, w2; split; [exact Hrun | exact Hbudget]]; simpl;
        [exact Hc | apply lookup_insert_eq | exact Hb | exact Hn].
    + edestruct (Plaintext_Send_budget) as (r & w2 & Hrun & Hbudget & _);
        [..|exists r, w2; split; [exact Hrun | exact Hbudget]]; simpl;
        [exact Hc | apply lookup_insert_eq | exact Hb | exact Hn].
Qed.

(** C10: when the readiness poll itself fails, [Plaintext_Recv] and
    [Plaintext_Send] each issue the transport-error log entry, carrying
    [errno] as it is after the poll, although the call attempted no read
    and no write. *)
Theorem poll_error_is_logged (w : World E) (c p b : loc) (fd n : Z)
  (data : list Byte.byte) :
  contexts w !! c = Some (mkNetworkContext (Some p)) ->
  params w !! p = Some (mkPlaintextParams fd) ->
  buffers w !! b = Some data ->
  0 < n ->
  (forall (s : Z) (e1 : E),
     poll_readable P fd (platform w) = (s, e1) ->
     s < 0 ->
     exists w',
       Plaintext_Recv P (Some c) (Some b) n w = Ok (-1, w') /\
       log_entries (emitted w w') = [transport_error_entry (errno P e1)] /\
       read_attempts (emitted w w') = [] /\
       write_attempts (emitted w w') = []) /\
  (forall (s : Z) (e1 : E),
     poll_writable P fd (platform w) = (s, e1) ->
     s < 0 ->
     exists w',
       Plaintext_Send P (Some c) (Some b) n w = Ok (-1, w') /\
       log_entries (emitted w w') = [transport_error_entry (errno P e1)] /\
       read_attempts (emitted w w') = [] /\
       write_attempts (emitted w w') = []).
Proof.
  intros Hc Hp Hb Hn. split; intros s e1 Hpoll Hs.
  - rewrite (Plaintext_Recv_run P w c p b fd n data Hc Hp Hb Hn), Hpoll.
    assert (H0 : (0 <? s) = false) by (apply Z.ltb_ge; lia).
    assert (H1 : (s <? 0) = true) by (apply Z.ltb_lt; lia).
    rewrite H0, H1.
    eexists; split; [reflexivity|].
    rewrite emitted_app. repeat split; reflexivity.
  - rewrite (Plaintext_Send_run P w c p b fd n data Hc Hp Hb Hn), Hpoll.
    assert (H0 : (0 <? s) = false) by (apply Z.ltb_ge; lia).
    assert (H1 : (s <? 0) = true) by (apply Z.ltb_lt; lia).
    rewrite H0, H1.
    eexists; split; [reflexivity|].
    rewrite emitted_app. repeat split; reflexivity.
Qed.

(** C9: [Plaintext_Recv], [Plaintext_Send] and [Plaintext_Disconnect]
    leave every context structure and every parameter block, the handle
    field included, as they found them.  [Plaintext_Connect] is the one
    function that writes the handle field, and it writes nothing else of
    the context. *)
Theorem context_is_preserved (w : World E) (c p b : loc) (fd n : Z)
  (data : list Byte.byte) (pServerInfo : option ServerInfo_t)
  (sendTimeoutMs recvTimeoutMs : Z) :
  contexts w !! c = Some (mkNetworkContext (Some p)) ->
  params w !! p = Some (mkPlaintextParams fd) ->
  buffers w !! b = Some data ->
  0 < n ->
  (exists r w',
     Plaintext_Recv P (Some c) (Some b) n w = Ok (r, w') /\
     contexts w' = contexts w /\ params w' = params w) /\
  (exists r w',
     Plaintext_Send P (Some c) (Some b) n w = Ok (r, w') /\
     contexts w' = contexts w /\ params w' = params w) /\
  (exists status w',
     Plaintext_Disconnect P (Some c) w = Ok (status, w') /\
     contexts w' = contexts w /\ params w' = params w) /\
  (exists status w',
     Plaintext_Connect P (Some c) pServerInfo sendTimeoutMs recvTimeoutMs w
       = Ok (status, w') /\
     contexts w' = contexts w /\
     forall q : loc, q <> p -> params w' !! q = params w !! q).
Proof.
  intros Hc Hp Hb Hn. repeat split.
  - destruct (Plaintext_Recv_budget w c p b fd n data Hc Hp Hb Hn)
      as (r & w' & Hrun & _ & Hcs & Hps).
    exists r, w'. repeat split; assumption.
  - destruct (Plaintext_Send_budget w c p b fd n data Hc Hp Hb Hn)
      as (r & w' & Hrun & _ & Hcs & Hps).
    exists r, w'. repeat split; assumption.
  - rewrite (Plaintext_Disconnect_run P w c p fd Hc Hp).
    destruct (Sockets_Disconnect P fd (platform w)) as [status e].
    do 2 eexists. repeat split; reflexivity.
  - rewrite (Plaintext_Connect_run P w c p fd _ _ _ Hc Hp).
    destruct (Sockets_Connect P fd pServerInfo sendTimeoutMs recvTimeoutMs
                (platform w)) as [[status sock] e].
    do 2 eexists. split; [reflexivity|]. split; [reflexivity|].
    intros q Hq. simpl. apply lookup_insert_ne. congruence.
Qed.

End Transfer.

(** ** Connect and disconnect *)

Section Connection.

Context {E : Type} (P : Platform E).

(** C7: with a [NULL] context, or a context whose parameter block pointer
    is [NULL], [Plaintext_Connect] and [Plaintext_Disconnect] return
    [SOCKETS_INVALID_PARAMETER]; neither [Sockets_Connect] nor
    [Sockets_Disconnect] nor any other call of the socket layer is made,
    and the platform and the memory are as before. *)
Theorem invalid_parameter_without_io (w : World E)
  (pNetworkContext : option loc) (pServerInfo : option ServerInfo_t)
  (sendTimeoutMs recvTimeoutMs : Z) :
  null_context_or_params w pNetworkContext ->
  (exists w',
     Plaintext_Connect P pNetworkContext pServerInfo sendTimeoutMs
       recvTimeoutMs w = Ok (SOCKETS_INVALID_PARAMETER, w') /\
     io_calls (emitted w w') = [] /\
     platform w' = platform w /\ contexts w' = contexts w /\
     params w' = params w /\ buffers w' = buffers w) /\
  (exists w',
     Plaintext_Disconnect P pNetworkContext w
       = Ok (SOCKETS_INVALID_PARAMETER, w') /\
     io_calls (emitted w w') = [] /\
     platform w' = platform w /\ contexts w' = contexts w /\
     params w' = params w /\ buffers w' = buffers w).
Proof.
  intros Hnull. split.
  - rewrite (Plaintext_Connect_invalid P w _ _ _ _ Hnull).
    eexists; split; [reflexivity|].
    rewrite emitted_app. repeat split; reflexivity.
  - rewrite (Plaintext_Disconnect_invalid P w _ Hnull).
    eexists; split; [reflexivity|].
    rewrite emitted_app. repeat split; reflexivity.
Qed.

(** C8: on a context with a parameter block, [Plaintext_Connect] calls
    [Sockets_Connect] exactly once, with the address of the block's
    [socketDescriptor] field, the server info and the two timeouts as it
    received them, and returns the status of that call. *)
Theorem Plaintext_Connect_delegates (w : World E) (c p : loc) (fd : Z)
  (pServerInfo : option ServerInfo_t) (sendTimeoutMs recvTimeoutMs : Z)
  (status : SocketStatus_t) (sock : Z) (e : E) :
  contexts w !! c = Some (mkNetworkContext (Some p)) ->
  params w !! p = Some (mkPlaintextParams fd) ->
  Sockets_Connect P fd pServerInfo sendTimeoutMs recvTimeoutMs (platform w)
    = (status, sock, e) ->
  exists w',
    Plaintext_Connect P (Some c) pServerInfo sendTimeoutMs recvTimeoutMs w
      = Ok (status, w') /\
    emitted w w' =
      [EvSocketsConnect (addr_socketDescriptor p) pServerInfo
         sendTimeoutMs recvTimeoutMs] /\
    platform w' = e /\
    params w' !! p = Some (mkPlaintextParams sock).
Proof.
  intros Hc Hp Hcall.
  rewrite (Plaintext_Connect_run P w c p fd _ _ _ Hc Hp), Hcall.
  eexists; split; [reflexivity|].
  rewrite emitted_app. repeat split; simpl. apply lookup_insert_eq.
Qed.

End Connection.

(** ** Send against receive *)

Section Mirror.

Context {E : Type} (P : Platform E).

Lemma insert_same_buffer (bs : gmap loc (list Byte.byte)) (b : loc)
  (data : list Byte.byte) :
  bs !! b = Some data -> <[ b := data ]> bs = bs.
Proof. apply insert_id. Qed.

(** C6: [Plaintext_Send] is [Plaintext_Recv] with writability put for
    readability and write for read.  On every platform, for all arguments
    and every world, the send and the receive over the exchanged platform
    stop on the same fault or return the same value, with the same log
    entries, the same platform state and memory, and traces that differ
    by the exchange of the directions only. *)
Theorem Plaintext_Send_mirrors_Recv (w : World E)
  (pNetworkContext pBuffer : option loc) (n : Z) :
  mirrored w
    (Plaintext_Send P pNetworkContext pBuffer n w)
    (Plaintext_Recv (swap_rw P) pNetworkContext pBuffer n w).
Proof.
  unfold mirrored, Plaintext_Send, Plaintext_Recv, bind, and_then,
    load_pParams, load_socketDescriptor, assert, abort, ret,
    call_zsock_select, call_zsock_send, call_zsock_recv, load_errno,
    logTransportError, LogError, emit.
  destruct pNetworkContext as [c|]; simpl; [|reflexivity].
  destruct (contexts w !! c) as [[[p|]]|] eqn:Hc; simpl; try reflexivity.
  destruct pBuffer as [b|]; simpl; [|reflexivity].
  destruct (0 <? n); simpl; [|reflexivity].
  rewrite Hc; simpl.
  destruct (params w !! p) as [[fd]|] eqn:Hp; simpl; [|reflexivity].
  repeat (rewrite Hp; simpl).
  destruct (zsock_select P _ _ _ _ _ _) as [s e1]; simpl.
  destruct (0 <? s) eqn:Hpos; simpl.
  - repeat (rewrite Hp; simpl).
    destruct (buffers w !! b) as [data|] eqn:Hb; simpl; [|reflexivity].
    destruct (zsock_send P fd data n 0 e1) as [r e2]; simpl.
    rewrite (insert_same_buffer _ _ _ Hb).
    destruct (Int32.cast r =? 0); simpl;
      [|destruct (Int32.cast r <? 0); simpl];
      rewrite <- !app_assoc, !emitted_app; repeat split; reflexivity.
  - destruct (s <? 0); simpl;
      rewrite <- ?app_assoc, !emitted_app; repeat split; reflexivity.
Qed.

End Mirror.

(** ** Instances on the scripted platform *)

(** C1 as the specification words it does not hold.  On the scripted
    platform the poll answers 1 and the read answers 0: the call returns
    -1, and the trace has the poll and the read and no log entry. *)
Lemma peer_closed_read_is_not_logged :
  fst (poll_readable Scripted.sockets 3
         (platform (Scripted.world (Scripted.net 1 0)))) = 1 /\
  fst (fst (zsock_recv Scripted.sockets 3 [] 10 0 (Scripted.net 1 0))) = 0 /\
  ~ (exists w',
       Plaintext_Recv Scripted.sockets (Some 1%positive) (Some 4%positive) 10
         (Scripted.world (Scripted.net 1 0)) = Ok (-1, w') /\
       log_entries (emitted (Scripted.world (Scripted.net 1 0)) w') <> []).
Proof.
  split; [reflexivity|]. split; [reflexivity|].
  intros (w' & Hrun & Hlog).
  vm_compute in Hrun. injection Hrun as <-.
  apply Hlog. vm_compute. reflexivity.
Qed.

Lemma Plaintext_Recv_peer_closed_witness :
  exists w',
    Plaintext_Recv Scripted.sockets (Some 1%positive) (Some 4%positive) 10
      (Scripted.world (Scripted.net 1 0)) = Ok (-1, w') /\
    log_entries (emitted (Scripted.world (Scripted.net 1 0)) w') = [] /\
    read_attempts (emitted (Scripted.world (Scripted.net 1 0)) w')
      = [EvRecv 3 4%positive 10 0].
Proof.
  apply (Plaintext_Recv_peer_closed Scripted.sockets
           (Scripted.world (Scripted.net 1 0)) 1%positive 2%positive
           4%positive 3 10 [] [] 1 (Scripted.net 1 0) (Scripted.net 1 0));
    [reflexivity | reflexivity | reflexivity | lia | reflexivity | lia
    | reflexivity].
Defined.

Lemma Plaintext_Recv_timeout_witness :
  exists w',
    Plaintext_Recv Scripted.sockets (Some 1%positive) (Some 4%positive) 10
      (Scripted.world (Scripted.net 0 5)) = Ok (0, w') /\
    log_entries (emitted (Scripted.world (Scripted.net 0 5)) w') = [] /\
    read_attempts (emitted (Scripted.world (Scripted.net 0 5)) w') = [].
Proof.
  apply (Plaintext_Recv_timeout Scripted.sockets
           (Scripted.world (Scripted.net 0 5)) 1%positive 2%positive
           4%positive 3 10 [] (Scripted.net 0 5));
    [reflexivity | reflexivity | reflexivity | lia | reflexivity].
Defined.

Lemma Plaintext_Recv_poll_error_witness :
  exists w',
    Plaintext_Recv Scripted.sockets (Some 1%positive) (Some 4%positive) 10
      (Scripted.world (Scripted.net (-1) 5)) = Ok (-1, w') /\
    read_attempts (emitted (Scripted.world (Scripted.net (-1) 5)) w') = [] /\
    buffers w' = buffers (Scripted.world (Scripted.net (-1) 5)).
Proof.
  apply (Plaintext_Recv_poll_error Scripted.sockets
           (Scripted.world (Scripted.net (-1) 5)) 1%positive 2%positive
           4%positive 3 10 [] (-1) (Scripted.net (-1) 5));
    [reflexivity | reflexivity | reflexivity | lia | reflexivity | lia].
Defined.

(** A short read: 4 bytes on a request for 10. *)
Lemma Plaintext_Recv_data_witness :
  exists w',
    Plaintext_Recv Scripted.sockets (Some 1%positive) (Some 4%positive) 10
      (Scripted.world (Scripted.net 1 4)) = Ok (4, w') /\
    log_entries (emitted (Scripted.world (Scripted.net 1 4)) w') = [] /\
    read_attempts (emitted (Scripted.world (Scripted.net 1 4)) w')
      = [EvRecv 3 4%positive 10 0] /\
    buffers w'
      = <[ 4%positive := [] ]> (buffers (Scripted.world (Scripted.net 1 4))).
Proof.
  apply (Plaintext_Recv_data Scripted.sockets
           (Scripted.world (Scripted.net 1 4)) 1%positive 2%positive
           4%positive 3 10 [] [] 1 4 (Scripted.net 1 4) (Scripted.net 1 4));
    [reflexivity | reflexivity | reflexivity | lia | reflexivity | lia
    | reflexivity
    | unfold Int32.in_range, Int32.min_signed, Int32.max_signed; lia
    | lia].
Defined.

(** Connect is given 30000 and 60000 ms; the polls still get 500 ms. *)
Lemma wait_budget_is_500ms_witness :
  (exists r w',
     Plaintext_Recv Scripted.sockets (Some 1%positive) (Some 4%positive) 10
       (Scripted.world (Scripted.net 1 4)) = Ok (r, w') /\
     select_budgets (emitted (Scripted.world (Scripted.net 1 4)) w')
       = [Some (mkTimeval 0 500000)]) /\
  (exists r w',
     Plaintext_Send Scripted.sockets (Some 1%positive) (Some 4%positive) 10
       (Scripted.world (Scripted.net 1 4)) = Ok (r, w') /\
     select_budgets (emitted (Scripted.world (Scripted.net 1 4)) w')
       = [Some (mkTimeval 0 500000)]) /\
  (exists status w1,
     Plaintext_Connect Scripted.sockets (Some 1%positive) None 30000 60000
       (Scripted.world (Scripted.net 1 4)) = Ok (status, w1) /\
     (exists r w2,
        Plaintext_Recv Scripted.sockets (Some 1%positive) (Some 4%positive)
          10 w1 = Ok (r, w2) /\
        select_budgets (emitted w1 w2) = [Some (mkTimeval 0 500000)]) /\
     (exists r w2,
        Plaintext_Send Scripted.sockets (Some 1%positive) (Some 4%positive)
          10 w1 = Ok (r, w2) /\
        select_budgets (emitted w1 w2) = [Some (mkTimeval 0 500000)])).
Proof.
  apply (wait_budget_is_500ms Scripted.sockets
           (Scripted.world (Scripted.net 1 4)) 1%positive 2%positive
           4%positive 3 10 [] None 30000 60000);
    [reflexivity | reflexivity | reflexivity | lia].
Defined.

Lemma poll_error_is_logged_witness :
  (exists w',
     Plaintext_Recv Scripted.sockets (Some 1%positive) (Some 4%positive) 10
       (Scripted.world (Scripted.net (-1) 5)) = Ok (-1, w') /\
     log_entries (emitted (Scripted.world (Scripted.net (-1) 5)) w')
       = [transport_error_entry 104] /\
     read_attempts (emitted (Scripted.world (Scripted.net (-1) 5)) w') = [] /\
     write_attempts (emitted (Scripted.world (Scripted.net (-1) 5)) w') = []) /\
  (exists w',
     Plaintext_Send Scripted.sockets (Some 1%positive) (Some 4%positive) 10
       (Scripted.world (Scripted.net (-1) 5)) = Ok (-1, w') /\
     log_entries (emitted (Scripted.world (Scripted.net (-1) 5)) w')
       = [transport_error_entry 104] /\
     read_attempts (emitted (Scripted.world (Scripted.net (-1) 5)) w') = [] /\
     write_attempts (emitted (Scripted.world (Scripted.net (-1) 5)) w') = []).
Proof.
  assert (Hboth := poll_error_is_logged Scripted.sockets
                     (Scripted.world (Scripted.net (-1) 5)) 1%positive
                     2%positive 4%positive 3 10 []).
  destruct Hboth as [Hrecv Hsend];
    [reflexivity | reflexivity | reflexivity | lia |].
  split.
  - apply (Hrecv (-1) (Scripted.net (-1) 5)); [reflexivity | lia].
  - apply (Hsend (-1) (Scripted.net (-1) 5)); [reflexivity | lia].
Defined.

Lemma context_is_preserved_witness :
  (exists r w',
     Plaintext_Recv Scripted.sockets (Some 1%positive) (Some 4%positive) 10
       (Scripted.world (Scripted.net 1 4)) = Ok (r, w') /\
     contexts w' = contexts (Scripted.world (Scripted.net 1 4)) /\
     params w' = params (Scripted.world (Scripted.net 1 4))) /\
  (exists r w',
     Plaintext_Send Scripted.sockets (Some 1%positive) (Some 4%positive) 10
       (Scripted.world (Scripted.net 1 4)) = Ok (r, w') /\
     contexts w' = contexts (Scripted.world (Scripted.net 1 4)) /\
     params w' = params (Scripted.world (Scripted.net 1 4))) /\
  (exists status w',
     Plaintext_Disconnect Scripted.sockets (Some 1%positive)
       (Scripted.world (Scripted.net 1 4)) = Ok (status, w') /\
     contexts w' = contexts (Scripted.world (Scripted.net 1 4)) /\
     params w' = params (Scripted.world (Scripted.net 1 4))) /\
  (exists status w',
     Plaintext_Connect Scripted.sockets (Some 1%positive) None 30000 60000
       (Scripted.world (Scripted.net 1 4)) = Ok (status, w') /\
     contexts w' = contexts (Scripted.world (Scripted.net 1 4)) /\
     forall q : loc,
       q <> 2%positive ->
       params w' !! q = params (Scripted.world (Scripted.net 1 4)) !! q).
Proof.
  apply (context_is_preserved Scripted.sockets
           (Scripted.world (Scripted.net 1 4)) 1%positive 2%positive
           4%positive 3 10 [] None 30000 60000);
    [reflexivity | reflexivity | reflexivity | lia].
Defined.

(** A [NULL] context. *)
Lemma invalid_parameter_without_io_witness :
  (exists w',
     Plaintext_Connect Scripted.sockets None None 30000 60000
       (Scripted.world (Scripted.net 1 4))
     = Ok (SOCKETS_INVALID_PARAMETER, w') /\
     io_calls (emitted (Scripted.world (Scripted.net 1 4)) w') = [] /\
     platform w' = platform (Scripted.world (Scripted.net 1 4)) /\
     contexts w' = contexts (Scripted.world (Scripted.net 1 4)) /\
     params w' = params (Scripted.world (Scripted.net 1 4)) /\
     buffers w' = buffers (Scripted.world (Scripted.net 1 4))) /\
  (exists w',
     Plaintext_Disconnect Scripted.sockets None
       (Scripted.world (Scripted.net 1 4))
     = Ok (SOCKETS_INVALID_PARAMETER, w') /\
     io_calls (emitted (Scripted.world (Scripted.net 1 4)) w') = [] /\
     platform w' = platform (Scripted.world (Scripted.net 1 4)) /\
     contexts w' = contexts (Scripted.world (Scripted.net 1 4)) /\
     params w' = params (Scripted.world (Scripted.net 1 4)) /\
     buffers w' = buffers (Scripted.world (Scripted.net 1 4))).
Proof.
  apply (invalid_parameter_without_io Scripted.sockets
           (Scripted.world (Scripted.net 1 4)) None None 30000 60000).
  simpl. exact I.
Defined.

Lemma Plaintext_Connect_delegates_witness :
  exists w',
    Plaintext_Connect Scripted.sockets (Some 1%positive)
      (Some (mkServerInfo "broker" 1883)) 30000 60000
      (Scripted.world (Scripted.net 1 4)) = Ok (SOCKETS_SUCCESS, w') /\
    emitted (Scripted.world (Scripted.net 1 4)) w' =
      [EvSocketsConnect (addr_socketDescriptor 2%positive)
         (Some (mkServerInfo "broker" 1883)) 30000 60000] /\
    platform w' = Scripted.net 1 4 /\
    params w' !! 2%positive = Some (mkPlaintextParams 7).
Proof.
  apply (Plaintext_Connect_delegates Scripted.sockets
           (Scripted.world (Scripted.net 1 4)) 1%positive 2%positive 3
           (Some (mkServerInfo "broker" 1883)) 30000 60000 SOCKETS_SUCCESS 7
           (Scripted.net 1 4));
    [reflexivity | reflexivity | reflexivity].
Defined.

(** ** Further runs *)

(** A context whose parameter block pointer is [NULL]: the check of
    [Plaintext_Disconnect] fails and the log entry is the whole trace. *)
Lemma Plaintext_Disconnect_null_params :
  exists w',
    Plaintext_Disconnect Scripted.sockets (Some 1%positive)
      (Scripted.world_no_params (Scripted.net 1 4))
    = Ok (SOCKETS_INVALID_PARAMETER, w') /\
    trace w' = [parameter_check_entry].
Proof. eexists. split; reflexivity. Qed.

(** A context pointer that points to no context is a fault, not a
    status. *)
Lemma Plaintext_Disconnect_dangling :
  Plaintext_Disconnect Scripted.sockets (Some 9%positive)
    (Scripted.world (Scripted.net 1 4)) = Abort InvalidPointer.
Proof. reflexivity. Qed.

(** The assertions of [Plaintext_Recv]: a request for 0 bytes stops the
    call before any poll. *)
Lemma Plaintext_Recv_zero_bytes :
  Plaintext_Recv Scripted.sockets (Some 1%positive) (Some 4%positive) 0
    (Scripted.world (Scripted.net 1 4)) = Abort AssertionFailed.
Proof. reflexivity. Qed.

(** A negative count from the read is returned as it is, after the log
    entry with [errno]. *)
Lemma Plaintext_Recv_read_error :
  exists w',
    Plaintext_Recv Scripted.sockets (Some 1%positive) (Some 4%positive) 10
      (Scripted.world (Scripted.net 1 (-1))) = Ok (-1, w') /\
    log_entries (trace w') = [transport_error_entry 104].
Proof. eexists. split; vm_compute; reflexivity. Qed.

(** Where [ssize_t] is wider than 32 bits, the conversion to [int32_t]
    keeps the low 32 bits of the count. *)
Lemma cast_beyond_int32 : Int32.cast 2147483648 = -2147483648.
Proof. reflexivity. Qed.

(** The scenario of the specification: connect, send 10 bytes, the peer
    closes, receive, disconnect.  The write gives 10, the read after the
    close gives -1 with no log entry, and the socket layer is asked to
    connect once and to close once. *)
Lemma connect_send_close_disconnect :
  match Scripted.session (Scripted.world (Scripted.net 1 10)) with
  | Ok (results, w') =>
      results = (SOCKETS_SUCCESS, 10, -1, SOCKETS_SUCCESS) /\
      trace w' =
        [EvSocketsConnect (addr_socketDescriptor 2%positive)
           (Some (mkServerInfo "broker" 1883)) 30000 60000;
         select_writable 7; EvSend 7 4%positive 10 0;
         select_readable 7; EvRecv 7 4%positive 10 0;
         EvSocketsDisconnect 7]
  | Abort _ => False
  end.
Proof. vm_compute. split; reflexivity. Qed.

(** ** Send, case by case *)

Section Send.

Context {E : Type} (P : Platform E).

(** X1: when the poll for writability times out, [Plaintext_Send]
    returns 0 with no write attempt and no log entry, and the buffers
    are as before. *)
Theorem Plaintext_Send_timeout (w : World E) (c p b : loc) (fd n : Z)
  (data : list Byte.byte) (e1 : E) :
  contexts w !! c = Some (mkNetworkContext (Some p)) ->
  params w !! p = Some (mkPlaintextParams fd) ->
  buffers w !! b = Some data ->
  0 < n ->
  poll_writable P fd (platform w) = (0, e1) ->
  exists w',
    Plaintext_Send P (Some c) (Some b) n w = Ok (0, w') /\
    log_entries (emitted w w') = [] /\
    write_attempts (emitted w w') = [] /\
    platform w' = e1.
Proof.
  intros Hc Hp Hb Hn Hpoll.
  rewrite (Plaintext_Send_run P w c p b fd n data Hc Hp Hb Hn), Hpoll.
  simpl. eexists; split; [reflexivity|].
  rewrite emitted_app. repeat split; reflexivity.
Qed.

(** X2: when the socket is writable and the write accepts 0 bytes,
    [Plaintext_Send] returns -1 after that one write, and issues no log
    entry. *)
Theorem Plaintext_Send_zero_written (w : World E) (c p b : loc) (fd n : Z)
  (data : list Byte.byte) (s : Z) (e1 e2 : E) :
  contexts w !! c = Some (mkNetworkContext (Some p)) ->
  params w !! p = Some (mkPlaintextParams fd) ->
  buffers w !! b = Some data ->
  0 < n ->
  poll_writable P fd (platform w) = (s, e1) ->
  0 < s ->
  zsock_send P fd data n 0 e1 = (0, e2) ->
  exists w',
    Plaintext_Send P (Some c) (Some b) n w = Ok (-1, w') /\
    log_entries (emitted w w') = [] /\
    write_attempts (emitted w w') = [EvSend fd b n 0].
Proof.
  intros Hc Hp Hb Hn Hpoll Hs Hsend.
  rewrite (Plaintext_Send_run P w c p b fd n data Hc Hp Hb Hn), Hpoll.
  apply Z.ltb_lt in Hs. rewrite Hs, Hsend. simpl.
  eexists; split; [reflexivity|].
  rewrite emitted_app. split; reflexivity.
Qed.

(** X3: when the socket is writable and the write accepts a positive
    count [r] of the [int32_t] range, [Plaintext_Send] returns [r], also
    when [r] is short of [bytesToSend]: the write is attempted once, the
    rest of the buffer is not sent, and no log entry is issued. *)
Theorem Plaintext_Send_data (w : World E) (c p b : loc) (fd n : Z)
  (data : list Byte.byte) (s r : Z) (e1 e2 : E) :
  contexts w !! c = Some (mkNetworkContext (Some p)) ->
  params w !! p = Some (mkPlaintextParams fd) ->
  buffers w !! b = Some data ->
  0 < n ->
  poll_writable P fd (platform w) = (s, e1) ->
  0 < s ->
  zsock_send P fd data n 0 e1 = (r, e2) ->
  Int32.in_range r ->
  0 < r ->
  exists w',
    Plaintext_Send P (Some c) (Some b) n w = Ok (r, w') /\
    log_entries (emitted w w') = [] /\
    write_attempts (emitted w w') = [EvSend fd b n 0] /\
    platform w' = e2.
Proof.
  intros Hc Hp Hb Hn Hpoll Hs Hsend Hrange Hr.
  rewrite (Plaintext_Send_run P w c p b fd n data Hc Hp Hb Hn), Hpoll.
  apply Z.ltb_lt in Hs. rewrite Hs, Hsend.
  rewrite (cast_in_range r Hrange).
  assert (H0 : (r =? 0) = false) by (apply Z.eqb_neq; lia).
  assert (H1 : (r <? 0) = false) by (apply Z.ltb_ge; lia).
  rewrite H0, H1.
  eexists; split; [reflexivity|].
  rewrite emitted_app. repeat split; reflexivity.
Qed.

(** X4: when the socket is writable and the write fails with a negative
    value [r] of the [int32_t] range, [Plaintext_Send] returns that same
    [r] (it is not replaced by -1) and issues one log entry, carrying
    [errno] as it is after the write. *)
Theorem Plaintext_Send_negative_count (w : World E) (c p b : loc) (fd n : Z)
  (data : list Byte.byte) (s r : Z) (e1 e2 : E) :
  contexts w !! c = Some (mkNetworkContext (Some p)) ->
  params w !! p = Some (mkPlaintextParams fd) ->
  buffers w !! b = Some data ->
  0 < n ->
  poll_writable P fd (platform w) = (s, e1) ->
  0 < s ->
  zsock_send P fd data n 0 e1 = (r, e2) ->
  Int32.in_range r ->
  r < 0 ->
  exists w',
    Plaintext_Send P (Some c) (Some b) n w = Ok (r, w') /\
    log_entries (emitted w w') = [transport_error_entry (errno P e2)] /\
    write_attempts (emitted w w') = [EvSend fd b n 0].
Proof.
  intros Hc Hp Hb Hn Hpoll Hs Hsend Hrange Hr.
  rewrite (Plaintext_Send_run P w c p b fd n data Hc Hp Hb Hn), Hpoll.
  apply Z.ltb_lt in Hs. rewrite Hs, Hsend.
  rewrite (cast_in_range r Hrange).
  assert (H0 : (r =? 0) = false) by (apply Z.eqb_neq; lia).
  assert (H1 : (r <? 0) = true) by (apply Z.ltb_lt; lia).
  rewrite H0, H1.
  eexists; split; [reflexivity|].
  rewrite emitted_app. split; reflexivity.
Qed.

(** X5: when the socket is readable and the read fails with a negative
    value [r] of the [int32_t] range, [Plaintext_Recv] returns that same
    [r] and issues one log entry, carrying [errno] as it is after the
    read (not as it was after the poll). *)
Theorem Plaintext_Recv_negative_count (w : World E) (c p b : loc) (fd n : Z)
  (data data' : list Byte.byte) (s r : Z) (e1 e2 : E) :
  contexts w !! c = Some (mkNetworkContext (Some p)) ->
  params w !! p = Some (mkPlaintextParams fd) ->
  buffers w !! b = Some data ->
  0 < n ->
  poll_readable P fd (platform w) = (s, e1) ->
  0 < s ->
  zsock_recv P fd data n 0 e1 = (r, data', e2) ->
  Int32.in_range r ->
  r < 0 ->
  exists w',
    Plaintext_Recv P (Some c) (Some b) n w = Ok (r, w') /\
    log_entries (emitted w w') = [transport_error_entry (errno P e2)] /\
    read_attempts (emitted w w') = [EvRecv fd b n 0].
Proof.
  intros Hc Hp Hb Hn Hpoll Hs Hrecv Hrange Hr.
  rewrite (Plaintext_Recv_run P w c p b fd n data Hc Hp Hb Hn), Hpoll.
  apply Z.ltb_lt in Hs. rewrite Hs, Hrecv.
  rewrite (cast_in_range r Hrange).
  assert (H0 : (r =? 0) = false) by (apply Z.eqb_neq; lia).
  assert (H1 : (r <? 0) = true) by (apply Z.ltb_lt; lia).
  rewrite H0, H1.
  eexists; split; [reflexivity|].
  rewrite emitted_app. split; reflexivity.
Qed.

End Send.

(** ** Each transfer as a whole *)

Lemma cast_range (x : Z) : Int32.in_range (Int32.cast x).
Proof.
  unfold Int32.in_range, Int32.cast, Int32.min_signed, Int32.max_signed,
    Int32.modulus.
  assert (H := Z.mod_pos_bound (x - -2147483648) 4294967296). lia.
Qed.

Ltac to_arith :=
  repeat match goal with
    | H : (_ <? _) = true |- _ => apply Z.ltb_lt in H
    | H : (_ <? _) = false |- _ => apply Z.ltb_ge in H
    | H : (_ =? _) = true |- _ => apply Z.eqb_eq in H
    | H : (_ =? _) = false |- _ => apply Z.eqb_neq in H
    end.

Section Whole.

Context {E : Type} (P : Platform E).

(** X6: the result of [Plaintext_Recv] is an [int32_t]; it is 0 exactly
    when the poll timed out, the read is attempted exactly when the poll
    reported ready, and a log entry is only ever issued with a negative
    result. *)
Theorem Plaintext_Recv_result (w : World E) (c p b : loc) (fd n : Z)
  (data : list Byte.byte) (s : Z) (e1 : E) :
  contexts w !! c = Some (mkNetworkContext (Some p)) ->
  params w !! p = Some (mkPlaintextParams fd) ->
  buffers w !! b = Some data ->
  0 < n ->
  poll_readable P fd (platform w) = (s, e1) ->
  exists r w',
    Plaintext_Recv P (Some c) (Some b) n w = Ok (r, w') /\
    Int32.in_range r /\
    (r = 0 <-> s = 0) /\
    (read_attempts (emitted w w') <> [] <-> 0 < s) /\
    (log_entries (emitted w w') <> [] -> r < 0).
Proof.
  intros Hc Hp Hb Hn Hpoll.
  rewrite (Plaintext_Recv_run P w c p b fd n data Hc Hp Hb Hn), Hpoll.
  destruct (0 <? s) eqn:Hpos.
  - destruct (zsock_recv P fd data n 0 e1) as [[r data'] e2].
    assert (Hrange := cast_range r).
    destruct (Int32.cast r =? 0) eqn:Hz;
      [|destruct (Int32.cast r <? 0) eqn:Hneg];
      do 2 eexists; (split; [reflexivity|]); rewrite emitted_app;
      unfold read_attempts, log_entries, select_readable; simpl;
      to_arith;
      unfold Int32.in_range, Int32.min_signed, Int32.max_signed in *;
      repeat split; try lia; try congruence.
  - destruct (s <? 0) eqn:Hs;
      do 2 eexists; (split; [reflexivity|]); rewrite emitted_app;
      unfold read_attempts, log_entries, select_readable; simpl;
      to_arith;
      unfold Int32.in_range, Int32.min_signed, Int32.max_signed in *;
      repeat split; try lia; try congruence.
Qed.

(** X7: the same for [Plaintext_Send]: an [int32_t] result, 0 exactly on
    a poll timeout, a write attempt exactly when the poll reported ready,
    a log entry only with a negative result. *)
Theorem Plaintext_Send_result (w : World E) (c p b : loc) (fd n : Z)
  (data : list Byte.byte) (s : Z) (e1 : E) :
  contexts w !! c = Some (mkNetworkContext (Some p)) ->
  params w !! p = Some (mkPlaintextParams fd) ->
  buffers w !! b = Some data ->
  0 < n ->
  poll_writable P fd (platform w) = (s, e1) ->
  exists r w',
    Plaintext_Send P (Some c) (Some b) n w = Ok (r, w') /\
    Int32.in_range r /\
    (r = 0 <-> s = 0) /\
    (write_attempts (emitted w w') <> [] <-> 0 < s) /\
    (log_entries (emitted w w') <> [] -> r < 0).
Proof.
  intros Hc Hp Hb Hn Hpoll.
  rewrite (Plaintext_Send_run P w c p b fd n data Hc Hp Hb Hn), Hpoll.
  destruct (0 <? s) eqn:Hpos.
  - destruct (zsock_send P fd data n 0 e1) as [r e2].
    assert (Hrange := cast_range r).
    destruct (Int32.cast r =? 0) eqn:Hz;
      [|destruct (Int32.cast r <? 0) eqn:Hneg];
      do 2 eexists; (split; [reflexivity|]); rewrite emitted_app;
      unfold write_attempts, log_entries, select_writable; simpl;
      to_arith;
      unfold Int32.in_range, Int32.min_signed, Int32.max_signed in *;
      repeat split; try lia; try congruence.
  - destruct (s <? 0) eqn:Hs;
      do 2 eexists; (split; [reflexivity|]); rewrite emitted_app;
      unfold write_attempts, log_entries, select_writable; simpl;
      to_arith;
      unfold Int32.in_range, Int32.min_signed, Int32.max_signed in *;
      repeat split; try lia; try congruence.
Qed.

End Whole.

(** ** What a transfer calls and what it leaves *)

Section Footprint.

Context {E : Type} (P : Platform E).

(** X8: [Plaintext_Recv] calls the socket layer for one poll of the one
    descriptor of the context, for readability, and for at most one read
    after it, on that descriptor with the caller's buffer and size and no
    flags; it calls nothing else, and it issues at most one log entry. *)
Theorem Plaintext_Recv_calls (w : World E) (c p b : loc) (fd n : Z)
  (data : list Byte.byte) :
  contexts w !! c = Some (mkNetworkContext (Some p)) ->
  params w !! p = Some (mkPlaintextParams fd) ->
  buffers w !! b = Some data ->
  0 < n ->
  exists r w',
    Plaintext_Recv P (Some c) (Some b) n w = Ok (r, w') /\
    (io_calls (emitted w w') = [select_readable fd] \/
     io_calls (emitted w w') = [select_readable fd; EvRecv fd b n 0]) /\
    (length (log_entries (emitted w w')) <= 1)%nat.
Proof.
  intros Hc Hp Hb Hn.
  rewrite (Plaintext_Recv_run P w c p b fd n data Hc Hp Hb Hn).
  destruct (poll_readable P fd (platform w)) as [s e1].
  destruct (0 <? s).
  - destruct (zsock_recv P fd data n 0 e1) as [[r data'] e2].
    destruct (Int32.cast r =? 0); [|destruct (Int32.cast r <? 0)];
      do 2 eexists; (split; [reflexivity|]); rewrite emitted_app;
      (split; [right; reflexivity | simpl; lia]).
  - destruct (s <? 0);
      do 2 eexists; (split; [reflexivity|]); rewrite emitted_app;
      (split; [left; reflexivity | simpl; lia]).
Qed.

(** X9: [Plaintext_Send] calls the socket layer for one poll of the one
    descriptor of the context, for writability, and for at most one
    write after it; it calls nothing else, and it issues at most one log
    entry. *)
Theorem Plaintext_Send_calls (w : World E) (c p b : loc) (fd n : Z)
  (data : list Byte.byte) :
  contexts w !! c = Some (mkNetworkContext (Some p)) ->
  params w !! p = Some (mkPlaintextParams fd) ->
  buffers w !! b = Some data ->
  0 < n ->
  exists r w',
    Plaintext_Send P (Some c) (Some b) n w = Ok (r, w') /\
    (io_calls (emitted w w') = [select_writable fd] \/
     io_calls (emitted w w') = [select_writable fd; EvSend fd b n 0]) /\
    (length (log_entries (emitted w w')) <= 1)%nat.
Proof.
  intros Hc Hp Hb Hn.
  rewrite (Plaintext_Send_run P w c p b fd n data Hc Hp Hb Hn).
  destruct (poll_writable P fd (platform w)) as [s e1].
  destruct (0 <? s).
  - destruct (zsock_send P fd data n 0 e1) as [r e2].
    destruct (Int32.cast r =? 0); [|destruct (Int32.cast r <? 0)];
      do 2 eexists; (split; [reflexivity|]); rewrite emitted_app;
      (split; [right; reflexivity | simpl; lia]).
  - destruct (s <? 0);
      do 2 eexists; (split; [reflexivity|]); rewrite emitted_app;
      (split; [left; reflexivity | simpl; lia]).
Qed.

(** X10: of the caller's buffers, [Plaintext_Recv] changes at most the
    one it was given, and none when it made no read; [Plaintext_Send]
    changes none. *)
Theorem transfer_buffers (w : World E) (c p b : loc) (fd n : Z)
  (data : list Byte.byte) :
  contexts w !! c = Some (mkNetworkContext (Some p)) ->
  params w !! p = Some (mkPlaintextParams fd) ->
  buffers w !! b = Some data ->
  0 < n ->
  (exists r w',
     Plaintext_Recv P (Some c) (Some b) n w = Ok (r, w') /\
     (forall q : loc, q <> b -> buffers w' !! q = buffers w !! q) /\
     (read_attempts (emitted w w') = [] -> buffers w' = buffers w)) /\
  (exists r w',
     Plaintext_Send P (Some c) (Some b) n w = Ok (r, w') /\
     buffers w' = buffers w).
Proof.
  intros Hc Hp Hb Hn. split.
  - rewrite (Plaintext_Recv_run P w c p b fd n data Hc Hp Hb Hn).
    destruct (poll_readable P fd (platform w)) as [s e1].
    destruct (0 <? s).
    + destruct (zsock_recv P fd data n 0 e1) as [[r data'] e2].
      destruct (Int32.cast r =? 0); [|destruct (Int32.cast r <? 0)];
        do 2 eexists; (split; [reflexivity|]); rewrite emitted_app;
        (split;
         [intros q Hq; simpl; apply lookup_insert_ne; congruence
         | unfold read_attempts, select_readable; simpl; congruence]).
    + destruct (s <? 0);
        do 2 eexists; (split; [reflexivity|]); split; reflexivity.
  - rewrite (Plaintext_Send_run P w c p b fd n data Hc Hp Hb Hn).
    destruct (poll_writable P fd (platform w)) as [s e1].
    destruct (0 <? s).
    + destruct (zsock_send P fd data n 0 e1) as [r e2].
      destruct (Int32.cast r =? 0); [|destruct (Int32.cast r <? 0)];
        do 2 eexists; split; reflexivity.
    + destruct (s <? 0); do 2 eexists; split; reflexivity.
Qed.

(** X11: the assertions of [Plaintext_Recv] and [Plaintext_Send].  With a
    [NULL] context or parameter block, or, on a context with a parameter
    block, with a [NULL] buffer or a size of 0, the call stops on the
    failed assertion. *)
Theorem transfer_assertions (w : World E)
  (pNetworkContext pBuffer : option loc) (n : Z) :
  null_context_or_params w pNetworkContext \/
  (exists c p : loc,
     pNetworkContext = Some c /\
     contexts w !! c = Some (mkNetworkContext (Some p)) /\
     (pBuffer = None \/ n <= 0)) ->
  Plaintext_Recv P pNetworkContext pBuffer n w = Abort AssertionFailed /\
  Plaintext_Send P pNetworkContext pBuffer n w = Abort AssertionFailed.
Proof.
  unfold Plaintext_Recv, Plaintext_Send, bind, and_then, load_pParams,
    assert, abort, ret.
  intros [Hnull | (c & p & -> & Hc & Hbad)].
  - destruct pNetworkContext as [c|]; simpl in *;
      rewrite ?Hnull; split; reflexivity.
  - simpl. rewrite Hc. simpl.
    destruct Hbad as [-> | Hn]; [split; reflexivity|].
    destruct pBuffer as [b|]; simpl; [|split; reflexivity].
    assert (H0 : (0 <? n) = false) by (apply Z.ltb_ge; lia).
    rewrite H0. split; reflexivity.
Qed.

End Footprint.

(** ** The handle across calls *)

Section Handle.

Context {E : Type} (P : Platform E).

Lemma Plaintext_Recv_next (w : World E) (c p b : loc) (fd n : Z)
  (data : list Byte.byte) :
  contexts w !! c = Some (mkNetworkContext (Some p)) ->
  params w !! p = Some (mkPlaintextParams fd) ->
  buffers w !! b = Some data ->
  0 < n ->
  exists r w' tail data1,
    Plaintext_Recv P (Some c) (Some b) n w = Ok (r, w') /\
    emitted w w' = select_readable fd :: tail /\
    contexts w' = contexts w /\ params w' = params w /\
    buffers w' !! b = Some data1.
Proof.
  intros Hc Hp Hb Hn.
  rewrite (Plaintext_Recv_run P w c p b fd n data Hc Hp Hb Hn).
  destruct (poll_readable P fd (platform w)) as [s e1].
  destruct (0 <? s).
  - destruct (zsock_recv P fd data n 0 e1) as [[r data'] e2].
    destruct (Int32.cast r =? 0); [|destruct (Int32.cast r <? 0)];
      do 4 eexists; (split; [reflexivity|]); rewrite emitted_app;
      repeat split; simpl; apply lookup_insert_eq.
  - destruct (s <? 0);
      do 4 eexists; (split; [reflexivity|]); rewrite emitted_app;
      repeat split; exact Hb.
Qed.

Lemma Plaintext_Send_next (w : World E) (c p b : loc) (fd n : Z)
  (data : list Byte.byte) :
  contexts w !! c = Some (mkNetworkContext (Some p)) ->
  params w !! p = Some (mkPlaintextParams fd) ->
  buffers w !! b = Some data ->
  0 < n ->
  exists r w' tail,
    Plaintext_Send P (Some c) (Some b) n w = Ok (r, w') /\
    emitted w w' = select_writable fd :: tail /\
    contexts w' = contexts w /\ params w' = params w /\
    buffers w' = buffers w.
Proof.
  intros Hc Hp Hb Hn.
  rewrite (Plaintext_Send_run P w c p b fd n data Hc Hp Hb Hn).
  destruct (poll_writable P fd (platform w)) as [s e1].
  destruct (0 <? s).
  - destruct (zsock_send P fd data n 0 e1) as [r e2].
    destruct (Int32.cast r =? 0); [|destruct (Int32.cast r <? 0)];
      do 3 eexists; (split; [reflexivity|]); rewrite emitted_app;
      repeat split; reflexivity.
  - destruct (s <? 0);
      do 3 eexists; (split; [reflexivity|]); rewrite emitted_app;
      repeat split; reflexivity.
Qed.

(** X12: on a context with a parameter block, [Plaintext_Disconnect]
    calls [Sockets_Disconnect] exactly once, with the descriptor stored
    in the block, and returns the status of that call; the descriptor
    stays in the block. *)
Theorem Plaintext_Disconnect_delegates (w : World E) (c p : loc) (fd : Z)
  (status : SocketStatus_t) (e : E) :
  contexts w !! c = Some (mkNetworkContext (Some p)) ->
  params w !! p = Some (mkPlaintextParams fd) ->
  Sockets_Disconnect P fd (platform w) = (status, e) ->
  exists w',
    Plaintext_Disconnect P (Some c) w = Ok (status, w') /\
    emitted w w' = [EvSocketsDisconnect fd] /\
    platform w' = e /\
    params w' !! p = Some (mkPlaintextParams fd) /\
    buffers w' = buffers w.
Proof.
  intros Hc Hp Hcall.
  rewrite (Plaintext_Disconnect_run P w c p fd Hc Hp), Hcall.
  eexists; split; [reflexivity|].
  rewrite emitted_app. repeat split. exact Hp.
Qed.

(** X13: [Plaintext_Disconnect] keeps no record of the close.  A second
    call on the same context passes the parameter check and calls
    [Sockets_Disconnect] again on the same descriptor, and returns what
    that second call gives. *)
Theorem Plaintext_Disconnect_twice (w : World E) (c p : loc) (fd : Z)
  (status1 status2 : SocketStatus_t) (e1 e2 : E) :
  contexts w !! c = Some (mkNetworkContext (Some p)) ->
  params w !! p = Some (mkPlaintextParams fd) ->
  Sockets_Disconnect P fd (platform w) = (status1, e1) ->
  Sockets_Disconnect P fd e1 = (status2, e2) ->
  exists w1 w2,
    Plaintext_Disconnect P (Some c) w = Ok (status1, w1) /\
    Plaintext_Disconnect P (Some c) w1 = Ok (status2, w2) /\
    emitted w w2 = [EvSocketsDisconnect fd; EvSocketsDisconnect fd].
Proof.
  intros Hc Hp Hcall1 Hcall2.
  rewrite (Plaintext_Disconnect_run P w c p fd Hc Hp), Hcall1.
  eexists. eexists. split; [reflexivity|].
  match goal with
  | |- context [Plaintext_Disconnect P (Some c) ?w1] => set (w1' := w1)
  end.
  rewrite (Plaintext_Disconnect_run P w1' c p fd Hc Hp). simpl.
  rewrite Hcall2. split; [reflexivity|].
  rewrite <- app_assoc. apply emitted_app.
Qed.

(** X14: the descriptor that [Sockets_Connect] leaves in the parameter
    block is the one the later calls use, whatever status the connect
    returned: [Plaintext_Disconnect] closes it, [Plaintext_Recv] and
    [Plaintext_Send] poll it. *)
Theorem connect_handle_is_used (w : World E) (c p b : loc) (fd n : Z)
  (data : list Byte.byte) (pServerInfo : option ServerInfo_t)
  (sendTimeoutMs recvTimeoutMs : Z) (status : SocketStatus_t) (sock : Z)
  (e : E) :
  contexts w !! c = Some (mkNetworkContext (Some p)) ->
  params w !! p = Some (mkPlaintextParams fd) ->
  buffers w !! b = Some data ->
  0 < n ->
  Sockets_Connect P fd pServerInfo sendTimeoutMs recvTimeoutMs (platform w)
    = (status, sock, e) ->
  exists w1,
    Plaintext_Connect P (Some c) pServerInfo sendTimeoutMs recvTimeoutMs w
      = Ok (status, w1) /\
    (exists closed w2,
       Plaintext_Disconnect P (Some c) w1 = Ok (closed, w2) /\
       emitted w1 w2 = [EvSocketsDisconnect sock]) /\
    (exists r w2 tail,
       Plaintext_Recv P (Some c) (Some b) n w1 = Ok (r, w2) /\
       emitted w1 w2 = select_readable sock :: tail) /\
    (exists r w2 tail,
       Plaintext_Send P (Some c) (Some b) n w1 = Ok (r, w2) /\
       emitted w1 w2 = select_writable sock :: tail).
Proof.
  intros Hc Hp Hb Hn Hcall.
  rewrite (Plaintext_Connect_run P w c p fd _ _ _ Hc Hp), Hcall.
  eexists. split; [reflexivity|].
  match goal with
  | |- context [Plaintext_Disconnect P (Some c) ?w1] => set (w1' := w1)
  end.
  assert (Hc1 : contexts w1' !! c = Some (mkNetworkContext (Some p)))
    by exact Hc.
  assert (Hp1 : params w1' !! p = Some (mkPlaintextParams sock))
    by apply lookup_insert_eq.
  assert (Hb1 : buffers w1' !! b = Some data) by exact Hb.
  split; [|split].
  - rewrite (Plaintext_Disconnect_run P w1' c p sock Hc1 Hp1).
    destruct (Sockets_Disconnect P sock (platform w1')) as [closed e'].
    do 2 eexists. split; [reflexivity|]. apply emitted_app.
  - destruct (Plaintext_Recv_next w1' c p b sock n data Hc1 Hp1 Hb1 Hn)
      as (r & w2 & tail & _ & Hrun & Hev & _).
    exists r, w2, tail. split; assumption.
  - destruct (Plaintext_Send_next w1' c p b sock n data Hc1 Hp1 Hb1 Hn)
      as (r & w2 & tail & Hrun & Hev & _).
    exists r, w2, tail. split; assumption.
Qed.

(** X15: a transfer keeps no record of its outcome.  After a
    [Plaintext_Recv] or a [Plaintext_Send], whatever it returned (a
    timeout's 0 or a failure's negative value as well), the next call on
    the same context and buffer runs and starts with a fresh poll of the
    same descriptor. *)
Theorem transfer_is_repeatable (w : World E) (c p b : loc) (fd n : Z)
  (data : list Byte.byte) :
  contexts w !! c = Some (mkNetworkContext (Some p)) ->
  params w !! p = Some (mkPlaintextParams fd) ->
  buffers w !! b = Some data ->
  0 < n ->
  (exists r1 w1,
     Plaintext_Recv P (Some c) (Some b) n w = Ok (r1, w1) /\
     (exists r2 w2 tail,
        Plaintext_Recv P (Some c) (Some b) n w1 = Ok (r2, w2) /\
        emitted w1 w2 = select_readable fd :: tail) /\
     (exists r2 w2 tail,
        Plaintext_Send P (Some c) (Some b) n w1 = Ok (r2, w2) /\
        emitted w1 w2 = select_writable fd :: tail)) /\
  (exists r1 w1,
     Plaintext_Send P (Some c) (Some b) n w = Ok (r1, w1) /\
     (exists r2 w2 tail,
        Plaintext_Recv P (Some c) (Some b) n w1 = Ok (r2, w2) /\
        emitted w1 w2 = select_readable fd :: tail) /\
     (exists r2 w2 tail,
        Plaintext_Send P (Some c) (Some b) n w1 = Ok (r2, w2) /\
        emitted w1 w2 = select_writable fd :: tail)).
Proof.
  intros Hc Hp Hb Hn. split.
  - destruct (Plaintext_Recv_next w c p b fd n data Hc Hp Hb Hn)
      as (r1 & w1 & tail1 & data1 & Hrun & _ & Hcs & Hps & Hbs).
    exists r1, w1. split; [exact Hrun|].
    rewrite <- Hcs in Hc. rewrite <- Hps in Hp. split.
    + destruct (Plaintext_Recv_next w1 c p b fd n data1 Hc Hp Hbs Hn)
        as (r2 & w2 & tail & _ & Hrun2 & Hev & _).
      exists r2, w2, tail. split; assumption.
    + destruct (Plaintext_Send_next w1 c p b fd n data1 Hc Hp Hbs Hn)
        as (r2 & w2 & tail & Hrun2 & Hev & _).
      exists r2, w2, tail. split; assumption.
  - destruct (Plaintext_Send_next w c p b fd n data Hc Hp Hb Hn)
      as (r1 & w1 & tail1 & Hrun & _ & Hcs & Hps & Hbs).
    exists r1, w1. split; [exact Hrun|].
    rewrite <- Hcs in Hc. rewrite <- Hps in Hp. rewrite <- Hbs in Hb.
    split.
    + destruct (Plaintext_Recv_next w1 c p b fd n data Hc Hp Hb Hn)
        as (r2 & w2 & tail & _ & Hrun2 & Hev & _).
      exists r2, w2, tail. split; assumption.
    + destruct (Plaintext_Send_next w1 c p b fd n data Hc Hp Hb Hn)
        as (r2 & w2 & tail & Hrun2 & Hev & _).
      exists r2, w2, tail. split; assumption.
Qed.

End Handle.

(** ** Further instances on the scripted platform *)

Lemma Plaintext_Send_timeout_witness :
  exists w',
    Plaintext_Send Scripted.sockets (Some 1%positive) (Some 4%positive) 10
      (Scripted.world (Scripted.net 0 5)) = Ok (0, w') /\
    log_entries (emitted (Scripted.world (Scripted.net 0 5)) w') = [] /\
    write_attempts (emitted (Scripted.world (Scripted.net 0 5)) w') = [] /\
    platform w' = Scripted.net 0 5.
Proof.
  apply (Plaintext_Send_timeout Scripted.sockets
           (Scripted.world (Scripted.net 0 5)) 1%positive 2%positive
           4%positive 3 10 [] (Scripted.net 0 5));
    [reflexivity | reflexivity | reflexivity | lia | reflexivity].
Defined.

Lemma Plaintext_Send_zero_written_witness :
  exists w',
    Plaintext_Send Scripted.sockets (Some 1%positive) (Some 4%positive) 10
      (Scripted.world (Scripted.net 1 0)) = Ok (-1, w') /\
    log_entries (emitted (Scripted.world (Scripted.net 1 0)) w') = [] /\
    write_attempts (emitted (Scripted.world (Scripted.net 1 0)) w')
      = [EvSend 3 4%positive 10 0].
Proof.
  apply (Plaintext_Send_zero_written Scripted.sockets
           (Scripted.world (Scripted.net 1 0)) 1%positive 2%positive
           4%positive 3 10 [] 1 (Scripted.net 1 0) (Scripted.net 1 0));
    [reflexivity | reflexivity | reflexivity | lia | reflexivity | lia
    | reflexivity].
Defined.

(** A short write: 4 bytes of 10. *)
Lemma Plaintext_Send_data_witness :
  exists w',
    Plaintext_Send Scripted.sockets (Some 1%positive) (Some 4%positive) 10
      (Scripted.world (Scripted.net 1 4)) = Ok (4, w') /\
    log_entries (emitted (Scripted.world (Scripted.net 1 4)) w') = [] /\
    write_attempts (emitted (Scripted.world (Scripted.net 1 4)) w')
      = [EvSend 3 4%positive 10 0] /\
    platform w' = Scripted.net 1 4.
Proof.
  apply (Plaintext_Send_data Scripted.sockets
           (Scripted.world (Scripted.net 1 4)) 1%positive 2%positive
           4%positive 3 10 [] 1 4 (Scripted.net 1 4) (Scripted.net 1 4));
    [reflexivity | reflexivity | reflexivity | lia | reflexivity | lia
    | reflexivity
    | unfold Int32.in_range, Int32.min_signed, Int32.max_signed; lia
    | lia].
Defined.

Lemma Plaintext_Send_negative_count_witness :
  exists w',
    Plaintext_Send Scripted.sockets (Some 1%positive) (Some 4%positive) 10
      (Scripted.world (Scripted.net 1 (-5))) = Ok (-5, w') /\
    log_entries (emitted (Scripted.world (Scripted.net 1 (-5))) w')
      = [transport_error_entry 104] /\
    write_attempts (emitted (Scripted.world (Scripted.net 1 (-5))) w')
      = [EvSend 3 4%positive 10 0].
Proof.
  apply (Plaintext_Send_negative_count Scripted.sockets
           (Scripted.world (Scripted.net 1 (-5))) 1%positive 2%positive
           4%positive 3 10 [] 1 (-5) (Scripted.net 1 (-5))
           (Scripted.net 1 (-5)));
    [reflexivity | reflexivity | reflexivity | lia | reflexivity | lia
    | reflexivity
    | unfold Int32.in_range, Int32.min_signed, Int32.max_signed; lia
    | lia].
Defined.

Lemma Plaintext_Recv_negative_count_witness :
  exists w',
    Plaintext_Recv Scripted.sockets (Some 1%positive) (Some 4%positive) 10
      (Scripted.world (Scripted.net 1 (-5))) = Ok (-5, w') /\
    log_entries (emitted (Scripted.world (Scripted.net 1 (-5))) w')
      = [transport_error_entry 104] /\
    read_attempts (emitted (Scripted.world (Scripted.net 1 (-5))) w')
      = [EvRecv 3 4%positive 10 0].
Proof.
  apply (Plaintext_Recv_negative_count Scripted.sockets
           (Scripted.world (Scripted.net 1 (-5))) 1%positive 2%positive
           4%positive 3 10 [] [] 1 (-5) (Scripted.net 1 (-5))
           (Scripted.net 1 (-5)));
    [reflexivity | reflexivity | reflexivity | lia | reflexivity | lia
    | reflexivity
    | unfold Int32.in_range, Int32.min_signed, Int32.max_signed; lia
    | lia].
Defined.

Lemma Plaintext_Recv_result_witness :
  exists r w',
    Plaintext_Recv Scripted.sockets (Some 1%positive) (Some 4%positive) 10
      (Scripted.world (Scripted.net 1 4)) = Ok (r, w') /\
    Int32.in_range r /\
    (r = 0 <-> 1 = 0) /\
    (read_attempts (emitted (Scripted.world (Scripted.net 1 4)) w') <> []
     <-> 0 < 1) /\
    (log_entries (emitted (Scripted.world (Scripted.net 1 4)) w') <> [] ->
     r < 0).
Proof.
  apply (Plaintext_Recv_result Scripted.sockets
           (Scripted.world (Scripted.net 1 4)) 1%positive 2%positive
           4%positive 3 10 [] 1 (Scripted.net 1 4));
    [reflexivity | reflexivity | reflexivity | lia | reflexivity].
Defined.

Lemma Plaintext_Send_result_witness :
  exists r w',
    Plaintext_Send Scripted.sockets (Some 1%positive) (Some 4%positive) 10
      (Scripted.world (Scripted.net 0 4)) = Ok (r, w') /\
    Int32.in_range r /\
    (r = 0 <-> 0 = 0) /\
    (write_attempts (emitted (Scripted.world (Scripted.net 0 4)) w') <> []
     <-> 0 < 0) /\
    (log_entries (emitted (Scripted.world (Scripted.net 0 4)) w') <> [] ->
     r < 0).
Proof.
  apply (Plaintext_Send_result Scripted.sockets
           (Scripted.world (Scripted.net 0 4)) 1%positive 2%positive
           4%positive 3 10 [] 0 (Scripted.net 0 4));
    [reflexivity | reflexivity | reflexivity | lia | reflexivity].
Defined.

Lemma Plaintext_Recv_calls_witness :
  exists r w',
    Plaintext_Recv Scripted.sockets (Some 1%positive) (Some 4%positive) 10
      (Scripted.world (Scripted.net 1 4)) = Ok (r, w') /\
    (io_calls (emitted (Scripted.world (Scripted.net 1 4)) w')
       = [select_readable 3] \/
     io_calls (emitted (Scripted.world (Scripted.net 1 4)) w')
       = [select_readable 3; EvRecv 3 4%positive 10 0]) /\
    (length (log_entries (emitted (Scripted.world (Scripted.net 1 4)) w'))
     <= 1)%nat.
Proof.
  apply (Plaintext_Recv_calls Scripted.sockets
           (Scripted.world (Scripted.net 1 4)) 1%positive 2%positive
           4%positive 3 10 []);
    [reflexivity | reflexivity | reflexivity | lia].
Defined.

Lemma Plaintext_Send_calls_witness :
  exists r w',
    Plaintext_Send Scripted.sockets (Some 1%positive) (Some 4%positive) 10
      (Scripted.world (Scripted.net 1 4)) = Ok (r, w') /\
    (io_calls (emitted (Scripted.world (Scripted.net 1 4)) w')
       = [select_writable 3] \/
     io_calls (emitted (Scripted.world (Scripted.net 1 4)) w')
       = [select_writable 3; EvSend 3 4%positive 10 0]) /\
    (length (log_entries (emitted (Scripted.world (Scripted.net 1 4)) w'))
     <= 1)%nat.
Proof.
  apply (Plaintext_Send_calls Scripted.sockets
           (Scripted.world (Scripted.net 1 4)) 1%positive 2%positive
           4%positive 3 10 []);
    [reflexivity | reflexivity | reflexivity | lia].
Defined.

Lemma transfer_buffers_witness :
  (exists r w',
     Plaintext_Recv Scripted.sockets (Some 1%positive) (Some 4%positive) 10
       (Scripted.world (Scripted.net 1 4)) = Ok (r, w') /\
     (forall q : loc,
        q <> 4%positive ->
        buffers w' !! q = buffers (Scripted.world (Scripted.net 1 4)) !! q) /\
     (read_attempts (emitted (Scripted.world (Scripted.net 1 4)) w') = [] ->
      buffers w' = buffers (Scripted.world (Scripted.net 1 4)))) /\
  (exists r w',
     Plaintext_Send Scripted.sockets (Some 1%positive) (Some 4%positive) 10
       (Scripted.world (Scripted.net 1 4)) = Ok (r, w') /\
     buffers w' = buffers (Scripted.world (Scripted.net 1 4))).
Proof.
  apply (transfer_buffers Scripted.sockets
           (Scripted.world (Scripted.net 1 4)) 1%positive 2%positive
           4%positive 3 10 []);
    [reflexivity | reflexivity | reflexivity | lia].
Defined.

(** A request for 0 bytes. *)
Lemma transfer_assertions_witness :
  Plaintext_Recv Scripted.sockets (Some 1%positive) (Some 4%positive) 0
    (Scripted.world (Scripted.net 1 4)) = Abort AssertionFailed /\
  Plaintext_Send Scripted.sockets (Some 1%positive) (Some 4%positive) 0
    (Scripted.world (Scripted.net 1 4)) = Abort AssertionFailed.
Proof.
  apply (transfer_assertions Scripted.sockets
           (Scripted.world (Scripted.net 1 4)) (Some 1%positive)
           (Some 4%positive) 0).
  right. exists 1%positive, 2%positive.
  split; [reflexivity|]. split; [reflexivity|]. right. lia.
Defined.

Lemma Plaintext_Disconnect_delegates_witness :
  exists w',
    Plaintext_Disconnect Scripted.sockets (Some 1%positive)
      (Scripted.world (Scripted.net 1 4)) = Ok (SOCKETS_SUCCESS, w') /\
    emitted (Scripted.world (Scripted.net 1 4)) w' = [EvSocketsDisconnect 3] /\
    platform w' = Scripted.net 1 4 /\
    params w' !! 2%positive = Some (mkPlaintextParams 3) /\
    buffers w' = buffers (Scripted.world (Scripted.net 1 4)).
Proof.
  apply (Plaintext_Disconnect_delegates Scripted.sockets
           (Scripted.world (Scripted.net 1 4)) 1%positive 2%positive 3
           SOCKETS_SUCCESS (Scripted.net 1 4));
    [reflexivity | reflexivity | reflexivity].
Defined.

Lemma Plaintext_Disconnect_twice_witness :
  exists w1 w2,
    Plaintext_Disconnect Scripted.sockets (Some 1%positive)
      (Scripted.world (Scripted.net 1 4)) = Ok (SOCKETS_SUCCESS, w1) /\
    Plaintext_Disconnect Scripted.sockets (Some 1%positive) w1
      = Ok (SOCKETS_SUCCESS, w2) /\
    emitted (Scripted.world (Scripted.net 1 4)) w2
      = [EvSocketsDisconnect 3; EvSocketsDisconnect 3].
Proof.
  apply (Plaintext_Disconnect_twice Scripted.sockets
           (Scripted.world (Scripted.net 1 4)) 1%positive 2%positive 3
           SOCKETS_SUCCESS SOCKETS_SUCCESS (Scripted.net 1 4)
           (Scripted.net 1 4));
    [reflexivity | reflexivity | reflexivity | reflexivity].
Defined.

(** The block holds 3; the connect leaves 7, and 7 is closed and
    polled. *)
Lemma connect_handle_is_used_witness :
  exists w1,
    Plaintext_Connect Scripted.sockets (Some 1%positive) None 30000 60000
      (Scripted.world (Scripted.net 1 4)) = Ok (SOCKETS_SUCCESS, w1) /\
    (exists closed w2,
       Plaintext_Disconnect Scripted.sockets (Some 1%positive) w1
         = Ok (closed, w2) /\
       emitted w1 w2 = [EvSocketsDisconnect 7]) /\
    (exists r w2 tail,
       Plaintext_Recv Scripted.sockets (Some 1%positive) (Some 4%positive)
         10 w1 = Ok (r, w2) /\
       emitted w1 w2 = select_readable 7 :: tail) /\
    (exists r w2 tail,
       Plaintext_Send Scripted.sockets (Some 1%positive) (Some 4%positive)
         10 w1 = Ok (r, w2) /\
       emitted w1 w2 = select_writable 7 :: tail).
Proof.
  apply (connect_handle_is_used Scripted.sockets
           (Scripted.world (Scripted.net 1 4)) 1%positive 2%positive
           4%positive 3 10 [] None 30000 60000 SOCKETS_SUCCESS 7
           (Scripted.net 1 4));
    [reflexivity | reflexivity | reflexivity | lia | reflexivity].
Defined.

(** After a failed poll. *)
Lemma transfer_is_repeatable_witness :
  (exists r1 w1,
     Plaintext_Recv Scripted.sockets (Some 1%positive) (Some 4%positive) 10
       (Scripted.world (Scripted.net (-1) 4)) = Ok (r1, w1) /\
     (exists r2 w2 tail,
        Plaintext_Recv Scripted.sockets (Some 1%positive) (Some 4%positive)
          10 w1 = Ok (r2, w2) /\
        emitted w1 w2 = select_readable 3 :: tail) /\
     (exists r2 w2 tail,
        Plaintext_Send Scripted.sockets (Some 1%positive) (Some 4%positive)
          10 w1 = Ok (r2, w2) /\
        emitted w1 w2 = select_writable 3 :: tail)) /\
  (exists r1 w1,
     Plaintext_Send Scripted.sockets (Some 1%positive) (Some 4%positive) 10
       (Scripted.world (Scripted.net (-1) 4)) = Ok (r1, w1) /\
     (exists r2 w2 tail,
        Plaintext_Recv Scripted.sockets (Some 1%positive) (Some 4%positive)
          10 w1 = Ok (r2, w2) /\
        emitted w1 w2 = select_readable 3 :: tail) /\
     (exists r2 w2 tail,
        Plaintext_Send Scripted.sockets (Some 1%positive) (Some 4%positive)
          10 w1 = Ok (r2, w2) /\
        emitted w1 w2 = select_writable 3 :: tail)).
Proof.
  apply (transfer_is_repeatable Scripted.sockets
           (Scripted.world (Scripted.net (-1) 4)) 1%positive 2%positive
           4%positive 3 10 []);
    [reflexivity | reflexivity | reflexivity | lia].
Defined.

(** ** Connecting again *)

Section Reconnect.

Context {E : Type} (P : Platform E).

(** X16: [Plaintext_Connect] does not look at the descriptor the block
    already holds.  A second connect on the same context calls
    [Sockets_Connect] again; the descriptor of the first connect is
    overwritten by the one the second leaves, and no
    [Sockets_Disconnect] is called for it. *)
Theorem Plaintext_Connect_twice (w : World E) (c p : loc) (fd : Z)
  (info1 info2 : option ServerInfo_t) (st1 rt1 st2 rt2 : Z)
  (status1 status2 : SocketStatus_t) (sock1 sock2 : Z) (e1 e2 : E) :
  contexts w !! c = Some (mkNetworkContext (Some p)) ->
  params w !! p = Some (mkPlaintextParams fd) ->
  Sockets_Connect P fd info1 st1 rt1 (platform w) = (status1, sock1, e1) ->
  Sockets_Connect P sock1 info2 st2 rt2 e1 = (status2, sock2, e2) ->
  exists w1 w2,
    Plaintext_Connect P (Some c) info1 st1 rt1 w = Ok (status1, w1) /\
    Plaintext_Connect P (Some c) info2 st2 rt2 w1 = Ok (status2, w2) /\
    emitted w w2 =
      [EvSocketsConnect (addr_socketDescriptor p) info1 st1 rt1;
       EvSocketsConnect (addr_socketDescriptor p) info2 st2 rt2] /\
    params w2 !! p = Some (mkPlaintextParams sock2).
Proof.
  intros Hc Hp Hcall1 Hcall2.
  rewrite (Plaintext_Connect_run P w c p fd _ _ _ Hc Hp), Hcall1.
  eexists. eexists. split; [reflexivity|].
  match goal with
  | |- context [Plaintext_Connect P (Some c) _ _ _ ?w1] => set (w1' := w1)
  end.
  assert (Hp1 : params w1' !! p = Some (mkPlaintextParams sock1))
    by apply lookup_insert_eq.
  rewrite (Plaintext_Connect_run P w1' c p sock1 _ _ _ Hc Hp1). simpl.
  rewrite Hcall2. split; [reflexivity|]. split.
  - rewrite <- app_assoc. apply emitted_app.
  - simpl. apply lookup_insert_eq.
Qed.

End Reconnect.

Lemma Plaintext_Connect_twice_witness :
  exists w1 w2,
    Plaintext_Connect Scripted.sockets (Some 1%positive) None 30000 60000
      (Scripted.world (Scripted.net 1 4)) = Ok (SOCKETS_SUCCESS, w1) /\
    Plaintext_Connect Scripted.sockets (Some 1%positive) None 100 200 w1
      = Ok (SOCKETS_SUCCESS, w2) /\
    emitted (Scripted.world (Scripted.net 1 4)) w2 =
      [EvSocketsConnect (addr_socketDescriptor 2%positive) None 30000 60000;
       EvSocketsConnect (addr_socketDescriptor 2%positive) None 100 200] /\
    params w2 !! 2%positive = Some (mkPlaintextParams 7).
Proof.
  apply (Plaintext_Connect_twice Scripted.sockets
           (Scripted.world (Scripted.net 1 4)) 1%positive 2%positive 3
           None None 30000 60000 100 200 SOCKETS_SUCCESS SOCKETS_SUCCESS
           7 7 (Scripted.net 1 4) (Scripted.net 1 4));
    [reflexivity | reflexivity | reflexivity | reflexivity].
Defined.

(** ** A count beyond [int32_t] *)

(** C4 as the specification words it does not hold for every positive
    count.  With an [ssize_t] wider than 32 bits, a request for [2^32]
    bytes and a read that returns [2^31], the conversion
    [( int32_t )] gives [-2147483648]: the call does not return the
    count, it returns a negative value and issues the log entry. *)
Lemma count_beyond_int32_is_not_returned :
  fst (poll_readable Scripted.sockets 3
         (platform (Scripted.world (Scripted.net 1 2147483648)))) = 1 /\
  fst (fst (zsock_recv Scripted.sockets 3 [] 4294967296 0
              (Scripted.net 1 2147483648))) = 2147483648 /\
  ~ (exists w',
       Plaintext_Recv Scripted.sockets (Some 1%positive) (Some 4%positive)
         4294967296 (Scripted.world (Scripted.net 1 2147483648))
       = Ok (2147483648, w') /\
       log_entries
         (emitted (Scripted.world (Scripted.net 1 2147483648)) w') = []) /\
  match
    Plaintext_Recv Scripted.sockets (Some 1%positive) (Some 4%positive)
      4294967296 (Scripted.world (Scripted.net 1 2147483648))
  with
  | Ok (r, w') =>
      r = -2147483648 /\
      log_entries (trace w') = [transport_error_entry 104]
  | Abort _ => False
  end.
Proof.
  split; [reflexivity|]. split; [reflexivity|]. split.
  - intros (w' & Hrun & _).
    vm_compute in Hrun. congruence.
  - vm_compute. split; reflexivity.
Qed.
